(** * Session analyzer: pattern detectors, classifier and corpus aggregation

    A shallow embedding of [tools/analyze_sessions.py] (class
    [SessionAnalyzer]) and of the counting part of
    [tools/create_dashboard.py], followed by the properties of the
    detectors, the classifier and the aggregator.

    Modelling conventions.
    - Python [str] is Rocq [string]; a character is one of the 256 code
      points of [ascii] (the Latin-1 range of Python's [str]).
    - Python [int] counters are [nat]; [turn_count] is [Z].
    - A Python [float] is the rational it denotes ([Q]); the sign of a
      zero is not kept, so [-0.0] is [0].  The timing code
      ([total_seconds() / 60], the averages, [round(x, 2)]) rounds every
      operation to the nearest IEEE 754 double ([Float64.rnd]).  The
      detector ratios and the report percentages, which the code only
      bounds or compares with 0.3, 0.5 and 0.6, are exact quotients.
    - A JSON object read with [.get(key, default)] is a record whose
      optional keys are [option] fields.
    - [collections.Counter] and [defaultdict] are [gmap string _]. *)

From Stdlib Require Import Ascii String ZArith QArith Qround Qabs Lqa.
From stdpp Require Import gmap strings list fin_maps.
From stdpp Require Import sorting.

Local Close Scope Q_scope.
Local Close Scope Z_scope.
Local Open Scope nat_scope.
Local Open Scope string_scope.

(** ** Python string primitives *)

Module PyStr.

(** [c.lower()] on the Latin-1 range: A-Z and the accented capitals
    U+00C0..U+00DE (except the multiplication sign U+00D7) move up by 32. *)
Definition lower_char (c : ascii) : ascii :=
  let n := N_of_ascii c in
  if (((65 <=? n) && (n <=? 90))
      || ((192 <=? n) && (n <=? 222) && negb (n =? 215)))%N
  then ascii_of_N (n + 32) else c.

Fixpoint lower (s : string) : string :=
  match s with
  | EmptyString => EmptyString
  | String c s' => String (lower_char c) (lower s')
  end.

(** [str.isspace] of one character, which is also the class [\s] of
    the [re] module on [str] patterns. *)
Definition isspace (c : ascii) : bool :=
  let n := N_of_ascii c in
  (((9 <=? n) && (n <=? 13)) || ((28 <=? n) && (n <=? 32))
   || (n =? 133) || (n =? 160))%N.

Fixpoint startswith (p s : string) : bool :=
  match p, s with
  | EmptyString, _ => true
  | String a p', String b s' => Ascii.eqb a b && startswith p' s'
  | String _ _, EmptyString => false
  end.

(** [needle in hay] *)
Fixpoint contains (needle hay : string) : bool :=
  startswith needle hay
  || match hay with
     | EmptyString => false
     | String _ hay' => contains needle hay'
     end.

(** [s[:n]] *)
Fixpoint take (n : nat) (s : string) : string :=
  match n, s with
  | S n', String c s' => String c (take n' s')
  | _, _ => EmptyString
  end.

(** [s.replace(old, "")] for a non-empty [old]: occurrences are found
    left to right and do not overlap.  [skip] counts the characters of
    the occurrence being dropped. *)
Fixpoint remove_from (old : string) (skip : nat) (s : string) : string :=
  match s with
  | EmptyString => EmptyString
  | String c s' =>
      match skip with
      | S k => remove_from old k s'
      | O =>
          if startswith old s
          then remove_from old (String.length old - 1) s'
          else String c (remove_from old 0 s')
      end
  end.

Definition remove (old s : string) : string := remove_from old 0 s.

Fixpoint rev_acc (acc s : string) : string :=
  match s with
  | EmptyString => acc
  | String c s' => rev_acc (String c acc) s'
  end.

(** [s.split(sep)] for a non-empty [sep]; [cur] is the current piece,
    reversed. *)
Fixpoint split_from (sep : string) (skip : nat) (cur : string) (s : string)
  : list string :=
  match s with
  | EmptyString => [rev_acc EmptyString cur]
  | String c s' =>
      match skip with
      | S k => split_from sep k cur s'
      | O =>
          if startswith sep s
          then rev_acc EmptyString cur
               :: split_from sep (String.length sep - 1) EmptyString s'
          else split_from sep 0 (String c cur) s'
      end
  end.

Definition split (sep s : string) : list string :=
  split_from sep 0 EmptyString s.

(** [sep.join(parts)] *)
Fixpoint join (sep : string) (parts : list string) : string :=
  match parts with
  | [] => EmptyString
  | [p] => p
  | p :: rest => p +:+ sep +:+ join sep rest
  end.

(** Truthiness of a string: [bool(s)]. *)
Definition truthy (s : string) : bool :=
  match s with EmptyString => false | String _ _ => true end.

(** Order of [str] values under [<=]: lexicographic on code points. *)
Definition leb (a b : string) : bool := String.leb a b.

End PyStr.

(** ** The regular expression of the delegation detector *)

Module Re.

(** Longest prefix of characters satisfying [p], and the rest. *)
Fixpoint span (p : ascii -> bool) (s : string) : string * string :=
  match s with
  | EmptyString => (EmptyString, EmptyString)
  | String c s' =>
      if p c
      then let '(a, b) := span p s' in (String c a, b)
      else (EmptyString, s)
  end.

Definition ichar (pat c : ascii) : bool :=
  Ascii.eqb (PyStr.lower_char c) pat.

(** An anchored match of [use\s+(\S+)] with [re.IGNORECASE]; the result
    is group 1.  Both repetitions are greedy, and giving back a
    whitespace character cannot help [\S+], so the longest runs decide. *)
Definition match_use_here (s : string) : option string :=
  match s with
  | String c1 (String c2 (String c3 rest)) =>
      if ichar "u" c1 && ichar "s" c2 && ichar "e" c3
      then
        let '(ws, after) := span PyStr.isspace rest in
        let '(tok, _) := span (fun c => negb (PyStr.isspace c)) after in
        if PyStr.truthy ws && PyStr.truthy tok then Some tok else None
      else None
  | _ => None
  end.

(** [re.search(r"use\s+(\S+)", s, re.IGNORECASE)]: leftmost match,
    [match.group(1)] when there is one. *)
Fixpoint search_use (s : string) : option string :=
  match match_use_here s with
  | Some tok => Some tok
  | None =>
      match s with
      | EmptyString => None
      | String _ s' => search_use s'
      end
  end.

End Re.

(** ** Data model: transcript messages *)

(** One entry of an assistant message's [tool_calls]: [tool] is
    [call.get("tool", "")] and [arguments_str] is
    [str(call.get("arguments", {}))], the only form in which the analyzer
    looks at the arguments. *)
Record ToolCall := {
  tool : string;
  arguments_str : string
}.

(** One typed block of a list-valued [content]; [block_type] is
    [item.get("type")] and [block_repr] is [repr(item)]. *)
Record Block := {
  block_type : option string;
  block_repr : string
}.

Inductive Content :=
| PlainText (text : string)
| BlockSequence (items : list Block).

(** A transcript line.  [None] in an [option] field is an absent key;
    [tool_calls] is [msg.get("tool_calls", [])], whose default is the empty
    list at every use. *)
Record Message := {
  role : option string;
  content : option Content;
  tool_calls : list ToolCall;
  timestamp : option string
}.

Definition role_is (msg : Message) (r : string) : bool :=
  match role msg with
  | Some r' => String.eqb r' r
  | None => false
  end.

(** [str(x)] of a content value: a string is itself, a list prints its
    items' [repr] between brackets. *)
Definition py_str (c : Content) : string :=
  match c with
  | PlainText s => s
  | BlockSequence items => "[" +:+ PyStr.join ", " (map block_repr items) +:+ "]"
  end.

(** ** Detector set *)

(** *** Delegation *)

Record DelegationSignal := {
  delegation_count : nat;
  agents_used : gset string;
  has_delegation : bool
}.

(** Loop state of [detect_delegation_pattern]: the list [agents_used] and
    the counter [delegation_count]. *)
Definition delegation_user_step (msg : Message) (st : list string * nat)
  : list string * nat :=
  let '(agents, count) := st in
  match default (PlainText "") (content msg) with
  | PlainText text =>
      if role_is msg "user" then
        if PyStr.contains "use " (PyStr.lower text)
           && PyStr.contains "agent" (PyStr.lower text)
        then
          match Re.search_use text with
          | Some name => ((agents ++ [name])%list, S count)
          | None => (agents, S count)
          end
        else st
      else st
  | BlockSequence _ => st
  end.

Definition delegation_call_step (count : nat) (call : ToolCall) : nat :=
  if PyStr.contains "agent" (tool call) || PyStr.contains "delegate" (tool call)
  then S count else count.

Definition delegation_tool_step (msg : Message) (st : list string * nat)
  : list string * nat :=
  let '(agents, count) := st in
  if role_is msg "assistant"
  then (agents, foldl delegation_call_step count (tool_calls msg))
  else st.

Definition delegation_step (st : list string * nat) (msg : Message)
  : list string * nat :=
  delegation_tool_step msg (delegation_user_step msg st).

Definition detect_delegation_pattern (messages : list Message)
  : DelegationSignal :=
  let '(agents, count) := foldl delegation_step ([], 0) messages in
  {| delegation_count := count;
     agents_used := list_to_set agents;
     has_delegation := (0 <? count)%nat |}.

(** *** Counters

    [collections.Counter]: a missing key reads as 0, [c[k] += 1] stores the
    successor, [sum(c.values())] adds every stored count. *)

Definition counter_get (c : gmap string nat) (k : string) : nat :=
  default 0 (c !! k).

Definition counter_incr (k : string) (c : gmap string nat) : gmap string nat :=
  <[k := S (counter_get c k)]> c.

Definition counter_total (c : gmap string nat) : nat :=
  map_fold (fun _ v acc => v + acc) 0 c.

(** *** Iteration *)

Record IterationSignal := {
  iteration_count : nat;
  is_iterative : bool
}.

Definition refinement_keywords : list string :=
  ["refine"; "improve"; "fix"; "update"; "revise"; "modify"; "adjust";
   "correct"].

Definition iteration_step (iterations : nat) (msg : Message) : nat :=
  if role_is msg "user" then
    let text := PyStr.lower (py_str (default (PlainText "") (content msg))) in
    if existsb (fun keyword => PyStr.contains keyword text) refinement_keywords
    then S iterations else iterations
  else iterations.

Definition detect_iteration_pattern (messages : list Message)
  : IterationSignal :=
  let iterations := foldl iteration_step 0 messages in
  {| iteration_count := iterations;
     is_iterative := (2 <=? iterations)%nat |}.

(** *** Exploration *)

Record ExplorationSignal := {
  exploration_tool_count : nat;
  parallel_searches : nat;
  is_exploratory : bool;
  tools_used : gmap string nat
}.

Definition exploration_tools : list string :=
  ["read_file"; "glob"; "grep"; "bash"; "web_search"].

Definition is_exploration_tool (name : string) : bool :=
  existsb (String.eqb name) exploration_tools.

Definition exploration_call_step (tool_usage : gmap string nat)
  (call : ToolCall) : gmap string nat :=
  if is_exploration_tool (tool call)
  then counter_incr (tool call) tool_usage else tool_usage.

(** Loop state: the counter [tool_usage] and [parallel_searches]. *)
Definition exploration_step (st : gmap string nat * nat) (msg : Message)
  : gmap string nat * nat :=
  let '(tool_usage, parallel) := st in
  if role_is msg "assistant" then
    let parallel' :=
      if (1 <? length (tool_calls msg))%nat then S parallel else parallel in
    (foldl exploration_call_step tool_usage (tool_calls msg), parallel')
  else st.

Definition detect_exploration_pattern (messages : list Message)
  : ExplorationSignal :=
  let '(tool_usage, parallel) := foldl exploration_step (∅, 0) messages in
  let total_exploration := counter_total tool_usage in
  {| exploration_tool_count := total_exploration;
     parallel_searches := parallel;
     is_exploratory := (5 <=? total_exploration)%nat || (2 <=? parallel)%nat;
     tools_used := tool_usage |}.

(** *** Implementation *)

Record ImplementationSignal := {
  write_operations : nat;
  edit_operations : nat;
  total_file_ops : nat;
  is_implementation : bool
}.

Definition implementation_call_step (st : nat * nat) (call : ToolCall)
  : nat * nat :=
  let '(writes, edits) := st in
  if String.eqb (tool call) "write_file" then (S writes, edits)
  else if String.eqb (tool call) "edit_file" then (writes, S edits)
  else st.

Definition implementation_step (st : nat * nat) (msg : Message) : nat * nat :=
  if role_is msg "assistant"
  then foldl implementation_call_step st (tool_calls msg)
  else st.

Definition detect_implementation_pattern (messages : list Message)
  : ImplementationSignal :=
  let '(writes, edits) := foldl implementation_step (0, 0) messages in
  let total_ops := writes + edits in
  {| write_operations := writes;
     edit_operations := edits;
     total_file_ops := total_ops;
     is_implementation := (3 <=? total_ops)%nat |}.

(** *** Error recovery *)

Record ErrorRecoverySignal := {
  errors_encountered : nat;
  recovery_attempts : nat;
  has_error_recovery : bool;
  recovery_rate : Q
}.

(** [a / b] of two counters with [b > 0]. *)
Definition ratio (a b : nat) : Q := Z.of_nat a # Pos.of_nat b.

Definition is_error_text (text : string) : bool :=
  PyStr.contains "error" (PyStr.lower text)
  || PyStr.contains "failed" (PyStr.lower text).

(** One iteration of [for i, msg in enumerate(messages)]; the state is
    [(errors, recovery_attempts)]. *)
Definition error_recovery_step (messages : list Message) (st : nat * nat)
  (entry : nat * Message) : nat * nat :=
  let '(errors, recoveries) := st in
  let '(i, msg) := entry in
  if role_is msg "tool" then
    if is_error_text (py_str (default (PlainText "") (content msg))) then
      match messages !! (i + 1) with
      | Some next =>
          if role_is next "assistant"
          then (S errors, S recoveries) else (S errors, recoveries)
      | None => (S errors, recoveries)
      end
    else st
  else st.

Definition enumerate {A} (l : list A) : list (nat * A) :=
  imap (fun i x => (i, x)) l.

Definition detect_error_recovery (messages : list Message)
  : ErrorRecoverySignal :=
  let '(errors, recoveries) :=
    foldl (error_recovery_step messages) (0, 0) (enumerate messages) in
  {| errors_encountered := errors;
     recovery_attempts := recoveries;
     has_error_recovery := (0 <? errors)%nat && (0 <? recoveries)%nat;
     recovery_rate := if (0 <? errors)%nat then ratio recoveries errors
                      else 0%Q |}.

(** *** Planning versus execution *)

Record PlanningSignal := {
  planning_messages : nat;
  execution_messages : nat;
  planning_ratio : Q;
  approach : string
}.

Definition planning_item_step (st : nat * nat) (item : Block) : nat * nat :=
  let '(planning, execution) := st in
  match block_type item with
  | Some ty =>
      if String.eqb ty "thinking" then (S planning, execution)
      else if String.eqb ty "tool_call" then (planning, S execution)
      else st
  | None => st
  end.

Definition planning_step (st : nat * nat) (msg : Message) : nat * nat :=
  if role_is msg "assistant" then
    match default (BlockSequence []) (content msg) with
    | BlockSequence items => foldl planning_item_step st items
    | PlainText _ => st
    end
  else st.

Definition Qgtb (a b : Q) : bool := negb (Qle_bool a b).

Definition detect_planning_vs_execution (messages : list Message)
  : PlanningSignal :=
  let '(planning, execution) := foldl planning_step (0, 0) messages in
  let total := planning + execution in
  let r := if (0 <? total)%nat then ratio planning total else 0%Q in
  {| planning_messages := planning;
     execution_messages := execution;
     planning_ratio := r;
     approach := if Qgtb r (6 # 10) then "planning-heavy"
                 else if Qgtb (3 # 10) r then "execution-heavy"
                 else "balanced" |}.

(** *** Validation *)

Record ValidationSignal := {
  test_runs : nat;
  code_checks : nat;
  reviews : nat;
  total_validation : nat;
  has_validation : bool
}.

Definition mentions (word : string) (call : ToolCall) : bool :=
  PyStr.contains word (PyStr.lower (arguments_str call))
  || PyStr.contains word (PyStr.lower (tool call)).

(** Loop state: [(test_runs, checks, reviews)]. *)
Definition validation_call_step (st : nat * nat * nat) (call : ToolCall)
  : nat * nat * nat :=
  let '(tests, checks, revs) := st in
  let tests' := if mentions "test" call then S tests else tests in
  let checks' := if String.eqb (tool call) "python_check" then S checks
                 else checks in
  let revs' := if mentions "review" call then S revs else revs in
  (tests', checks', revs').

Definition validation_step (st : nat * nat * nat) (msg : Message)
  : nat * nat * nat :=
  if role_is msg "assistant"
  then foldl validation_call_step st (tool_calls msg)
  else st.

Definition detect_validation_pattern (messages : list Message)
  : ValidationSignal :=
  let '(tests, checks, revs) := foldl validation_step (0, 0, 0) messages in
  let total := tests + checks + revs in
  {| test_runs := tests;
     code_checks := checks;
     reviews := revs;
     total_validation := total;
     has_validation := (0 <? total)%nat |}.

(** ** Classifier *)

Record Patterns := {
  delegation : DelegationSignal;
  iteration : IterationSignal;
  exploration : ExplorationSignal;
  implementation : ImplementationSignal;
  error_recovery : ErrorRecoverySignal;
  planning_execution : PlanningSignal;
  validation : ValidationSignal
}.

(** [if cond: approaches.append(label)] *)
Definition append_if (cond : bool) (label : string) (approaches : list string)
  : list string :=
  if cond then (approaches ++ [label])%list else approaches.

Definition categorize_approach (patterns : Patterns) : list string :=
  let approaches := [] in
  let approaches :=
    append_if (is_iterative (iteration patterns))
      "Iterative Refinement" approaches in
  let approaches :=
    append_if (is_exploratory (exploration patterns))
      "Exploratory Investigation" approaches in
  let approaches :=
    append_if (is_implementation (implementation patterns)
               && negb (is_iterative (iteration patterns)))
      "Direct Implementation" approaches in
  let approaches :=
    append_if (has_delegation (delegation patterns))
      "Multi-Agent Orchestration" approaches in
  let approaches :=
    append_if (has_error_recovery (error_recovery patterns))
      "Error Recovery & Resilience" approaches in
  let approaches :=
    append_if (has_validation (validation patterns))
      "Validation-Driven" approaches in
  match approaches with
  | [] => ["Simple/Conversational"]
  | _ :: _ => approaches
  end.

(** ** Session duration *)

(** A [datetime] value: the wall-clock instant in microseconds and, for an
    aware value, its UTC offset in microseconds. *)
Record datetime := {
  wall_us : Z;
  utcoffset_us : option Z
}.

Inductive exn := ValueError | TypeError.

Inductive result (A : Type) :=
| Ok (a : A)
| Raise (e : exn).
Arguments Ok {A} a.
Arguments Raise {A} e.

Definition bind {A B} (r : result A) (k : A -> result B) : result B :=
  match r with
  | Ok a => k a
  | Raise e => Raise e
  end.

Notation "'try!' x ':=' r 'in' k" := (bind r (fun x => k))
  (at level 10, x name, r at level 100, k at level 200).

(** [b - a] on datetimes, as a [timedelta] in microseconds: two naive
    values subtract their wall clocks, two aware values their UTC instants,
    and mixing the two kinds raises [TypeError]. *)
Definition datetime_sub (b a : datetime) : result Z :=
  match utcoffset_us b, utcoffset_us a with
  | None, None => Ok (wall_us b - wall_us a)%Z
  | Some ob, Some oa => Ok ((wall_us b - ob) - (wall_us a - oa))%Z
  | _, _ => Raise TypeError
  end.

(** Rounding of a rational to the nearest integer, ties to even. *)
Definition round_half_even (q : Q) : Z :=
  let f := Qfloor q in
  match (q - inject_Z f ?= 1 # 2)%Q with
  | Lt => f
  | Gt => (f + 1)%Z
  | Eq => if Z.even f then f else (f + 1)%Z
  end.

(** IEEE 754 binary64 arithmetic, as Python's [float] has it.

    Every finite double is a whole number of units of 2^-1074, the
    smallest positive double: [m * 2^s] units with [m < 2^53] and
    [0 <= s].  An operation returns the double nearest to the exact
    result, ties to the even [m].  Overflow is not modelled: the values of
    this program stay far below 2^1024, the range of [datetime] giving
    differences below 2^59 microseconds. *)
Module Float64.

(** The number of units of 2^-1074 in 1. *)
Definition units : Z := (2 ^ 1074)%Z.

(** The doubles around [u] units are [2^s] units apart: [s] is 0 up to
    2^53 units (the subnormal range and the first binade), and in general
    the binade of [u] is [2^(s+52) <= u < 2^(s+53)]. *)
Definition spacing_exponent (u : Q) : Z :=
  Z.max (Z.log2 (Qfloor u) - 52) 0.

(** The double nearest to [u >= 0] units, in units. *)
Definition nearest_units (u : Q) : Z :=
  let s := spacing_exponent u in
  (round_half_even (u / inject_Z (2 ^ s)) * 2 ^ s)%Z.

Definition rnd_nonneg (q : Q) : Q :=
  Qred (inject_Z (nearest_units (q * inject_Z units)) / inject_Z units).

(** The double nearest to [q]. *)
Definition rnd (q : Q) : Q :=
  if Qle_bool 0 q then rnd_nonneg q else (- rnd_nonneg (- q))%Q.


(** [a / b]: on two [int]s the correctly rounded quotient; on a [float]
    and an [int] that a double holds exactly (below 2^53 in size), the
    quotient of two doubles. *)
Definition truediv (a b : Q) : Q := rnd (a / b).

(** [a + b] *)
Definition add (a b : Q) : Q := rnd (a + b).

(** [sum(xs)]: the running total starts at 0 and adds from the left, each
    partial sum rounded (CPython before 3.12; later versions also carry a
    compensation term, which can move the last bit of the total). *)
Definition sum (xs : list Q) : Q := foldl add 0%Q xs.

End Float64.

(** [round(x, 2)] of a [float]: the decimal with two places nearest to the
    exact value of [x], ties to the even digit, read back as a double. *)
Definition round2 (x : Q) : Q :=
  Float64.rnd (inject_Z (round_half_even (x * 100)) / 100).

(** [delta.total_seconds() / 60]: [total_seconds] divides the whole
    number of microseconds by [10**6], and the result is divided by 60. *)
Definition minutes_of_us (d : Z) : Q :=
  Float64.truediv (Float64.truediv (inject_Z d) 1000000) 60.

Section Duration.

(** [datetime.fromisoformat]: [None] is a [ValueError]. *)
Variable fromisoformat : string -> option datetime.

Definition parse_timestamp (ts : string) : result datetime :=
  match fromisoformat (PyStr.remove "+00:00" ts) with
  | Some d => Ok d
  | None => Raise ValueError
  end.

(** The body of the [try] block: [Ok (Some q)] returns [q] from inside
    the block, [Ok None] falls out of it. *)
Definition duration_try (first last : Message) : result (option Q) :=
  let first_ts := default "" (timestamp first) in
  let last_ts := default "" (timestamp last) in
  if PyStr.truthy first_ts && PyStr.truthy last_ts then
    try! first_time := parse_timestamp first_ts in
    try! last_time := parse_timestamp last_ts in
    try! delta := datetime_sub last_time first_time in
    Ok (Some (round2 (minutes_of_us delta)))
  else Ok None.

Definition calculate_session_duration (messages : list Message) : Q :=
  if (length messages <? 2)%nat then 0%Q
  else
    match head messages, last messages with
    | Some first, Some last =>
        match duration_try first last with
        | Ok (Some duration) => duration
        | Ok None => 0%Q
        | Raise _ => 0%Q
        end
    | _, _ => 0%Q
    end.

End Duration.

(** ** Session summarizer *)

(** A non-empty [metadata.json] object; every key is optional. *)
Record Metadata := {
  meta_session_id : option string;
  meta_created : option string;
  meta_name : option string;
  meta_description : option string;
  meta_bundle : option string;
  meta_model : option string;
  meta_turn_count : option Z
}.

(** What [analyze_session] reads for one [metadata_path]:
    [parse_metadata] gives [None] for [{}] (an empty object or a file that
    does not parse) and [parse_transcript] gives the message list (empty
    when the transcript is absent). *)
Record SessionFiles := {
  metadata_path : string;
  metadata : option Metadata;
  transcript : list Message
}.

Record SessionRecord := {
  session_id : string;
  parent_session_id : string;
  created : string;
  name : string;
  description : string;
  bundle : string;
  model : string;
  turn_count : Z;
  message_count : nat;
  duration_minutes : Q;
  approaches : list string;
  primary_approach : string;
  patterns : Patterns;
  success_indicators : list string;
  project : string
}.

(** [metadata_path.parent.name]: the last but one component of the path. *)
Definition session_dir_name (path : string) : string :=
  match reverse (PyStr.split "/" path) with
  | _ :: dir :: _ => dir
  | _ => ""
  end.

Definition detect_patterns (messages : list Message) : Patterns :=
  {| delegation := detect_delegation_pattern messages;
     iteration := detect_iteration_pattern messages;
     exploration := detect_exploration_pattern messages;
     implementation := detect_implementation_pattern messages;
     error_recovery := detect_error_recovery messages;
     planning_execution := detect_planning_vs_execution messages;
     validation := detect_validation_pattern messages |}.

Definition success_indicators_of (pats : Patterns) (turns : Z) : list string :=
  let indicators := [] in
  let indicators :=
    append_if (0 <? total_file_ops (implementation pats))%nat
      "Files Modified" indicators in
  let indicators :=
    append_if (Qgtb (recovery_rate (error_recovery pats)) (1 # 2))
      "Good Error Recovery" indicators in
  let indicators :=
    append_if (has_validation (validation pats)) "Validated" indicators in
  append_if (5 <? turns)%Z "Substantial Work" indicators.

Section Summarizer.

Variable fromisoformat : string -> option datetime.

Definition analyze_session (files : SessionFiles) : option SessionRecord :=
  match metadata files, transcript files with
  | None, _ => None
  | Some _, [] => None
  | Some md, (_ :: _) as messages =>
      let pats := detect_patterns messages in
      let duration := calculate_session_duration fromisoformat messages in
      let labels := categorize_approach pats in
      let dir := session_dir_name (metadata_path files) in
      Some
        {| session_id := default "" (meta_session_id md);
           parent_session_id :=
             if PyStr.contains "-" dir
             then default "" (head (PyStr.split "-" dir)) else "";
           created := default "" (meta_created md);
           name := default "Untitled" (meta_name md);
           description := PyStr.take 200 (default "" (meta_description md));
           bundle := default "" (meta_bundle md);
           model := default "" (meta_model md);
           turn_count := default 0%Z (meta_turn_count md);
           message_count := length messages;
           duration_minutes := duration;
           approaches := labels;
           primary_approach := default "Unknown" (head labels);
           patterns := pats;
           success_indicators :=
             success_indicators_of pats (default 0%Z (meta_turn_count md));
           project :=
             default ""
               (head (PyStr.split "/sessions/"
                        (default ""
                           (last (PyStr.split "/projects/"
                                    (metadata_path files))))))
        |}
  end.

(** [results.append(result)] for every session that is not skipped. *)
Definition analyze_all_sessions (corpus : list SessionFiles)
  : list SessionRecord :=
  omap analyze_session corpus.

End Summarizer.

(** ** Corpus aggregator *)

Record PatternStatistics := {
  iterative_sessions : nat;
  exploratory_sessions : nat;
  implementation_sessions : nat;
  delegated_sessions : nat;
  validated_sessions : nat;
  error_recovery_sessions : nat
}.

Record Summary := {
  total_sessions : nat;
  approach_frequencies : gmap string nat;
  average_turns : Q;
  average_duration_minutes : Q;
  pattern_statistics : PatternStatistics;
  sessions_by_date : list (string * nat)
}.

Definition count_approaches (counts : gmap string nat) (session : SessionRecord)
  : gmap string nat :=
  foldl (fun c label => counter_incr label c) counts (approaches session).

(** [sum(1 for s in sessions if gate(s))] *)
Definition count_where (gate : SessionRecord -> bool)
  (sessions : list SessionRecord) : nat :=
  length (filter (fun s => gate s = true) sessions).

Definition sum_Z (l : list Z) : Z := foldr Z.add 0%Z l.

Definition date_key (session : SessionRecord) : string :=
  if PyStr.truthy (created session) then PyStr.take 10 (created session)
  else "unknown".

(** [sessions_by_date[date].append(session)] on a [defaultdict(list)]. *)
Definition bucket_by_date (buckets : gmap string (list SessionRecord))
  (session : SessionRecord) : gmap string (list SessionRecord) :=
  <[date_key session :=
      (default [] (buckets !! date_key session) ++ [session])%list]> buckets.

Fixpoint insert_by_key {A} (item : string * A) (l : list (string * A))
  : list (string * A) :=
  match l with
  | [] => [item]
  | x :: rest =>
      if PyStr.leb (fst item) (fst x) then item :: l
      else x :: insert_by_key item rest
  end.

(** [sorted(d.items())] of a dictionary: its keys are distinct, so the
    order is that of the keys. *)
Definition sorted_items {A} (d : gmap string A) : list (string * A) :=
  foldr insert_by_key [] (map_to_list d).

Definition generate_summary_statistics (sessions : list SessionRecord)
  : Summary :=
  let approach_counts := foldl count_approaches ∅ sessions in
  let avg_turns :=
    match sessions with
    | [] => 0%Q
    | _ :: _ =>
        Float64.truediv (inject_Z (sum_Z (map turn_count sessions)))
          (inject_Z (Z.of_nat (length sessions)))
    end in
  let avg_duration :=
    match sessions with
    | [] => 0%Q
    | _ :: _ =>
        Float64.truediv (Float64.sum (map duration_minutes sessions))
          (inject_Z (Z.of_nat (length sessions)))
    end in
  let pattern_stats :=
    {| iterative_sessions :=
         count_where (fun s => is_iterative (iteration (patterns s))) sessions;
       exploratory_sessions :=
         count_where (fun s => is_exploratory (exploration (patterns s)))
           sessions;
       implementation_sessions :=
         count_where
           (fun s => is_implementation (implementation (patterns s))) sessions;
       delegated_sessions :=
         count_where (fun s => has_delegation (delegation (patterns s)))
           sessions;
       validated_sessions :=
         count_where (fun s => has_validation (validation (patterns s)))
           sessions;
       error_recovery_sessions :=
         count_where
           (fun s => has_error_recovery (error_recovery (patterns s)))
           sessions |} in
  let by_date := foldl bucket_by_date ∅ sessions in
  {| total_sessions := length sessions;
     approach_frequencies := approach_counts;
     average_turns := round2 avg_turns;
     average_duration_minutes := round2 avg_duration;
     pattern_statistics := pattern_stats;
     sessions_by_date :=
       map (fun '(date, sess) => (date, length sess)) (sorted_items by_date) |}.

(** ** Dashboard counters ([create_dashboard.py])

    The dashboard reads back the rows that [export_to_csv] wrote; a row is
    the [csv.DictReader] dictionary from column header to cell text.  Only
    the text columns are modelled. *)

Definition csv_row (s : SessionRecord) : gmap string string :=
  <["Session ID" := session_id s]>
  (<["Parent Session" := parent_session_id s]>
  (<["Created" := created s]>
  (<["Name" := name s]>
  (<["Project" := project s]>
  (<["Bundle" := bundle s]>
  (<["Model" := model s]>
  (<["Primary Approach" := primary_approach s]>
  (<["All Approaches" := PyStr.join ", " (approaches s)]>
  (<["Success Indicators" := PyStr.join ", " (success_indicators s)]>
   ∅))))))))).

Definition primary_counter_step (counter : gmap string nat)
  (row : gmap string string) : gmap string nat :=
  let primary := default "Unknown" (row !! "Primary Approach") in
  if PyStr.truthy primary then counter_incr primary counter else counter.

Definition primary_counter (rows : list (gmap string string))
  : gmap string nat :=
  foldl primary_counter_step ∅ rows.

(** ** A reference instance of [fromisoformat]

    The analyzer is parametric in [datetime.fromisoformat].  To run it on
    concrete transcripts this module gives the library function on the
    fragment [YYYY-MM-DD?HH:MM:SS[.fff[fff]][+HH:MM|-HH:MM]] (any single
    separator character between date and time); every other string is
    rejected. *)

Module Iso.

Local Open Scope Z_scope.

Definition digit (c : ascii) : option Z :=
  let n := Z.of_N (N_of_ascii c) in
  if (48 <=? n) && (n <=? 57) then Some (n - 48) else None.

Fixpoint digits (acc : Z) (s : string) : option Z :=
  match s with
  | EmptyString => Some acc
  | String c s' =>
      match digit c with
      | Some d => digits (10 * acc + d) s'
      | None => None
      end
  end.

(** The number written in the [len] characters starting at [start]. *)
Definition field (s : string) (start len : nat) : option Z :=
  let f := String.substring start len s in
  if (String.length f =? len)%nat then digits 0 f else None.

Definition char_is (s : string) (i : nat) (c : ascii) : bool :=
  match String.get i s with
  | Some c' => Ascii.eqb c' c
  | None => false
  end.

Fixpoint drop (n : nat) (s : string) : string :=
  match n, s with
  | S n', String _ s' => drop n' s'
  | _, _ => s
  end.

Definition is_leap (y : Z) : bool :=
  ((y mod 4 =? 0) && negb (y mod 100 =? 0)) || (y mod 400 =? 0).

Definition days_in_month (y m : Z) : Z :=
  if m =? 2 then (if is_leap y then 29 else 28)
  else if (m =? 4) || (m =? 6) || (m =? 9) || (m =? 11) then 30
  else 31.

(** Days from 1970-01-01 to the given civil date. *)
Definition days_from_civil (y m d : Z) : Z :=
  let y' := if m <=? 2 then y - 1 else y in
  let era := y' / 400 in
  let yoe := y' - era * 400 in
  let mp := if 2 <? m then m - 3 else m + 9 in
  let doy := (153 * mp + 2) / 5 + d - 1 in
  let doe := yoe * 365 + yoe / 4 - yoe / 100 + doy in
  era * 146097 + doe - 719468.

(** The optional fraction: microseconds and the remaining text. *)
Definition fraction (s : string) : option (Z * string) :=
  match s with
  | String "." rest =>
      match field rest 0 6, field rest 0 3 with
      | Some us, _ => Some (us, drop 6 rest)
      | None, Some ms => Some (ms * 1000, drop 3 rest)
      | None, None => None
      end
  | _ => Some (0, s)
  end.

(** The optional UTC offset, in microseconds. *)
Definition offset (s : string) : option (option Z) :=
  match s with
  | EmptyString => Some None
  | String sign rest =>
      if (String.length rest =? 5)%nat && char_is rest 2 ":" then
        match field rest 0 2, field rest 3 2 with
        | Some h, Some m =>
            if (h <? 24) && (m <? 60) then
              let us := (h * 3600 + m * 60) * 1000000 in
              if Ascii.eqb sign "+" then Some (Some us)
              else if Ascii.eqb sign "-" then Some (Some (- us))
              else None
            else None
        | _, _ => None
        end
      else None
  end.

Definition fromisoformat (s : string) : option datetime :=
  match field s 0 4, field s 5 2, field s 8 2,
        field s 11 2, field s 14 2, field s 17 2 with
  | Some y, Some mo, Some d, Some h, Some mi, Some se =>
      if char_is s 4 "-" && char_is s 7 "-"
         && char_is s 13 ":" && char_is s 16 ":"
         && (1 <=? y) && (1 <=? mo) && (mo <=? 12)
         && (1 <=? d) && (d <=? days_in_month y mo)
         && (h <? 24) && (mi <? 60) && (se <? 60)
      then
        match fraction (drop 19 s) with
        | Some (us, rest) =>
            match offset rest with
            | Some tz =>
                Some {| wall_us :=
                          (days_from_civil y mo d * 86400
                           + h * 3600 + mi * 60 + se) * 1000000 + us;
                        utcoffset_us := tz |}
            | None => None
            end
        | None => None
        end
      else None
  | _, _, _, _, _, _ => None
  end.

End Iso.

(** ** Reference counts

    Direct, loop-free descriptions of what the detectors tally; the
    theorems below relate the loops of the analyzer to them. *)

(** Every tool call issued by an assistant message, in transcript order. *)
Definition assistant_calls (messages : list Message) : list ToolCall :=
  concat (map (fun msg => if role_is msg "assistant" then tool_calls msg
                          else []) messages).

(** The text of a user message whose content is a plain string. *)
Definition user_text (msg : Message) : option string :=
  if role_is msg "user" then
    match default (PlainText "") (content msg) with
    | PlainText text => Some text
    | BlockSequence _ => None
    end
  else None.

(** The test of the analyzer on a user text: ["use "], with its trailing
    blank, and ["agent"], both looked up in the lowercased text. *)
Definition asks_for_agent (text : string) : bool :=
  PyStr.contains "use " (PyStr.lower text)
  && PyStr.contains "agent" (PyStr.lower text).

(** The test as the specification words it: the substrings ["use"] and
    ["agent"], case-insensitively. *)
Definition spec_asks_for_agent (text : string) : bool :=
  PyStr.contains "use" (PyStr.lower text)
  && PyStr.contains "agent" (PyStr.lower text).

Definition is_delegation_tool (call : ToolCall) : bool :=
  PyStr.contains "agent" (tool call) || PyStr.contains "delegate" (tool call).

Definition delegating_texts (messages : list Message) : list string :=
  filter (fun text => asks_for_agent text = true) (omap user_text messages).

Definition delegation_tool_calls (messages : list Message) : list ToolCall :=
  filter (fun call => is_delegation_tool call = true)
    (assistant_calls messages).

(** The delegation count as the specification words it. *)
Definition spec_delegation_count (messages : list Message) : nat :=
  length (filter (fun text => spec_asks_for_agent text = true)
            (omap user_text messages))
  + length (delegation_tool_calls messages).

Definition exploration_calls (messages : list Message) : list ToolCall :=
  filter (fun call => is_exploration_tool (tool call) = true)
    (assistant_calls messages).

(** Assistant messages that issue more than one tool call. *)
Definition parallel_turns (messages : list Message) : list Message :=
  filter (fun msg => role_is msg "assistant" = true
                     ∧ 1 < length (tool_calls msg)) messages.

(** An assistant turn with exactly one tool call, to [read_file]. *)
Definition single_read_turn (msg : Message) : Prop :=
  role msg = Some "assistant"
  ∧ ∃ call, tool_calls msg = [call] ∧ tool call = "read_file".

Definition no_gate_fires (pats : Patterns) : bool :=
  negb (is_iterative (iteration pats))
  && negb (is_exploratory (exploration pats))
  && negb (is_implementation (implementation pats))
  && negb (has_delegation (delegation pats))
  && negb (has_error_recovery (error_recovery pats))
  && negb (has_validation (validation pats)).

(** [msg.get("timestamp", "")] of the first or last message. *)
Definition timestamp_of (msg : option Message) : string :=
  default "" (msg ≫= timestamp).

(** The primary-approach distribution of a list of session records: for
    each label, the number of sessions whose primary label it is. *)
Definition sessions_with_primary (label : string)
  (sessions : list SessionRecord) : list SessionRecord :=
  filter (fun s => primary_approach s = label) sessions.

(** ** Sample transcripts *)

Definition user_says (text : string) : Message :=
  {| role := Some "user"; content := Some (PlainText text);
     tool_calls := []; timestamp := None |}.

Definition assistant_runs (tools : list string) : Message :=
  {| role := Some "assistant"; content := None;
     tool_calls := map (fun t => {| tool := t; arguments_str := "{}" |}) tools;
     timestamp := None |}.

Definition tool_reports (text : string) : Message :=
  {| role := Some "tool"; content := Some (PlainText text);
     tool_calls := []; timestamp := None |}.

Definition stamped (ts : string) : Message :=
  {| role := Some "user"; content := Some (PlainText "hello");
     tool_calls := []; timestamp := Some ts |}.

Definition sample_metadata : Metadata :=
  {| meta_session_id := Some "abc-1"; meta_created := Some "2024-01-01T10:00:00";
     meta_name := None; meta_description := None; meta_bundle := None;
     meta_model := None; meta_turn_count := Some 3%Z |}.

Definition sample_files (messages : list Message) : SessionFiles :=
  {| metadata_path := "/home/u/.amplifier/projects/demo/sessions/abc-1/metadata.json";
     metadata := Some sample_metadata;
     transcript := messages |}.

(** Two refinement requests and five reads: both the iteration and the
    exploration gate fire. *)
Definition iterative_explorer : list Message :=
  [user_says "please fix the parser"; assistant_runs ["read_file"; "grep"];
   user_says "now improve the error text";
   assistant_runs ["read_file"; "read_file"; "bash"]].

(** Two refinement requests and three writes. *)
Definition iterative_writer : list Message :=
  [user_says "fix it"; assistant_runs ["write_file"; "write_file"];
   user_says "fix it again"; assistant_runs ["edit_file"]].

Definition six_reads : list Message :=
  replicate 6 (assistant_runs ["read_file"]).





(** ** Transcript loading *)

Module PyText.

(** [s.lstrip()], [s.rstrip()] and [s.strip()] with no argument: leading
    and trailing whitespace is removed. *)
Definition lstrip (s : string) : string := snd (Re.span PyStr.isspace s).

Fixpoint rstrip (s : string) : string :=
  match s with
  | EmptyString => EmptyString
  | String c s' =>
      match rstrip s' with
      | EmptyString => if PyStr.isspace c then EmptyString
                       else String c EmptyString
      | String _ _ as kept => String c kept
      end
  end.

Definition strip (s : string) : string := rstrip (lstrip s).

(** The characters of a string, for statements about all of them. *)
Fixpoint chars (s : string) : list ascii :=
  match s with
  | EmptyString => []
  | String c s' => c :: chars s'
  end.

End PyText.

Section Loader.

(** [json.loads] of one transcript line; [None] is a [JSONDecodeError]. *)
Variable json_loads : string -> option Message.

(** The [for line in f] loop of [parse_transcript]: blank lines are
    skipped, and the first line that does not parse raises out of the
    loop, which leaves [messages] as it is at that point. *)
Fixpoint read_lines (messages : list Message) (lines : list string)
  : list Message :=
  match lines with
  | [] => messages
  | line :: rest =>
      if PyStr.truthy (PyText.strip line) then
        match json_loads line with
        | Some msg => read_lines (messages ++ [msg])%list rest
        | None => messages
        end
      else read_lines messages rest
  end.

(** [parse_transcript]: [None] is a session directory without
    [transcript.jsonl], [Some lines] the lines of the file. *)
Definition parse_transcript (file : option (list string)) : list Message :=
  match file with
  | None => []
  | Some lines => read_lines [] lines
  end.

End Loader.

(** ** Reference counts for the other detectors *)

(** A user message whose lowercased, stringified content contains one of
    the refinement keywords. *)
Definition is_refinement_request (msg : Message) : bool :=
  role_is msg "user"
  && existsb
       (fun keyword =>
          PyStr.contains keyword
            (PyStr.lower (py_str (default (PlainText "") (content msg)))))
       refinement_keywords.

Definition calls_named (tool_name : string) (messages : list Message)
  : list ToolCall :=
  filter (fun call => tool call = tool_name) (assistant_calls messages).

(** A tool message whose stringified content mentions an error. *)
Definition is_error_report (msg : Message) : bool :=
  role_is msg "tool"
  && is_error_text (py_str (default (PlainText "") (content msg))).

(** Error reports that are immediately followed by an assistant message. *)
Fixpoint recovered_errors (messages : list Message) : nat :=
  match messages with
  | msg :: rest =>
      match rest with
      | next :: _ =>
          (if is_error_report msg && role_is next "assistant" then 1 else 0)
          + recovered_errors rest
      | [] => 0
      end
  | [] => 0
  end.

(** Every content block of an assistant message with list content. *)
Definition assistant_blocks (messages : list Message) : list Block :=
  concat (map (fun msg =>
                 if role_is msg "assistant" then
                   match default (BlockSequence []) (content msg) with
                   | BlockSequence items => items
                   | PlainText _ => []
                   end
                 else []) messages).

Definition blocks_of_type (ty : string) (messages : list Message)
  : list Block :=
  filter (fun item => block_type item = Some ty) (assistant_blocks messages).

(** A tool call that the validation detector counts at least once. *)
Definition is_validation_call (call : ToolCall) : bool :=
  mentions "test" call
  || String.eqb (tool call) "python_check"
  || mentions "review" call.

(** What one call adds to [total_validation]. *)
Definition validation_weight (call : ToolCall) : nat :=
  ((if mentions "test" call then 1 else 0)
  + (if String.eqb (tool call) "python_check" then 1 else 0)
  + (if mentions "review" call then 1 else 0))%nat.

(** The labels of the classifier in the order in which it tests them. *)
Definition approach_priority : list string :=
  ["Iterative Refinement"; "Exploratory Investigation";
   "Direct Implementation"; "Multi-Agent Orchestration";
   "Error Recovery & Resilience"; "Validation-Driven"].

Definition indicator_order : list string :=
  ["Files Modified"; "Good Error Recovery"; "Validated"; "Substantial Work"].

(** A session that [analyze_session] does not skip. *)
Definition is_valid_session (files : SessionFiles) : bool :=
  match metadata files, transcript files with
  | Some _, _ :: _ => true
  | _, _ => false
  end.

Definition sessions_on (date : string) (sessions : list SessionRecord)
  : list SessionRecord :=
  filter (fun s => date_key s = date) sessions.

(** ** Dashboard counters, continued *)

Definition column (row : gmap string string) (header : string) : string :=
  default "" (row !! header).

(** [approach_counter]: every piece of the "All Approaches" cell, split at
    ", " and stripped, is counted. *)
Definition approach_counter_step (counter : gmap string nat)
  (row : gmap string string) : gmap string nat :=
  let cell := column row "All Approaches" in
  if PyStr.truthy cell
  then foldl (fun c piece => counter_incr (PyText.strip piece) c) counter
         (PyStr.split ", " cell)
  else counter.

Definition approach_counter (rows : list (gmap string string))
  : gmap string nat :=
  foldl approach_counter_step ∅ rows.

(** [sum(1 for s in rows if word in s.get(header, ""))] *)
Definition count_rows (word header : string)
  (rows : list (gmap string string)) : nat :=
  length (filter (fun row => PyStr.contains word (column row header) = true)
            rows).

(** The timeline groups the rows that have a non-empty "Created" cell by
    its first ten characters. *)
Definition timeline_bucket (buckets : gmap string (list (gmap string string)))
  (row : gmap string string) : gmap string (list (gmap string string)) :=
  match row !! "Created" with
  | Some cell =>
      if PyStr.truthy cell
      then <[PyStr.take 10 cell :=
               (default [] (buckets !! PyStr.take 10 cell) ++ [row])%list]>
             buckets
      else buckets
  | None => buckets
  end.

Record TimelineRow := {
  day_total : nat;
  day_exploratory : nat;
  day_error_recovery : nat;
  day_validation : nat;
  day_direct : nat
}.

Definition day_summary (day_sessions : list (gmap string string))
  : TimelineRow :=
  {| day_total := length day_sessions;
     day_exploratory := count_rows "Exploratory" "All Approaches" day_sessions;
     day_error_recovery :=
       count_rows "Error Recovery" "All Approaches" day_sessions;
     day_validation := count_rows "Validation" "All Approaches" day_sessions;
     day_direct :=
       count_rows "Direct Implementation" "All Approaches" day_sessions |}.

Definition timeline (rows : list (gmap string string))
  : list (string * TimelineRow) :=
  map (fun '(date, day_sessions) => (date, day_summary day_sessions))
    (sorted_items (foldl timeline_bucket ∅ rows)).

(** The four counts of the "Success Patterns" sheet: rows whose
    "Success Indicators" cell mentions the indicator. *)
Record SuccessCounts := {
  file_mod : nat;
  validated : nat;
  error_rec : nat;
  substantial : nat
}.

Definition success_counts (rows : list (gmap string string)) : SuccessCounts :=
  {| file_mod := count_rows "Files Modified" "Success Indicators" rows;
     validated := count_rows "Validated" "Success Indicators" rows;
     error_rec := count_rows "Good Error Recovery" "Success Indicators" rows;
     substantial := count_rows "Substantial Work" "Success Indicators" rows |}.

(** The sessions with a non-empty [created] whose first ten characters are
    [date]. *)
Definition sessions_created_on (date : string)
  (sessions : list SessionRecord) : list SessionRecord :=
  filter (fun s => PyStr.truthy (created s) = true
                   ∧ PyStr.take 10 (created s) = date) sessions.

(** ** The report printed by [main] *)

Definition pattern_items (stats : PatternStatistics) : list (string * nat) :=
  [("iterative_sessions", iterative_sessions stats);
   ("exploratory_sessions", exploratory_sessions stats);
   ("implementation_sessions", implementation_sessions stats);
   ("delegated_sessions", delegated_sessions stats);
   ("validated_sessions", validated_sessions stats);
   ("error_recovery_sessions", error_recovery_sessions stats)].

(** [(count / total) * 100]; [None] is a [ZeroDivisionError]. *)
Definition percentage (count total : nat) : option Q :=
  if (total =? 0)%nat then None else Some (ratio count total * 100)%Q.

(** The loop over [summary["pattern_statistics"].items()]: the lines
    printed, or [None] when a division raises. *)
Fixpoint report_lines (total : nat) (items : list (string * nat))
  : option (list (string * nat * Q)) :=
  match items with
  | [] => Some []
  | (label, count) :: rest =>
      match percentage count total with
      | Some pct =>
          match report_lines total rest with
          | Some lines => Some ((label, count, pct) :: lines)
          | None => None
          end
      | None => None
      end
  end.

Definition pattern_report (summary : Summary)
  : option (list (string * nat * Q)) :=
  report_lines (total_sessions summary)
    (pattern_items (pattern_statistics summary)).

(** ** More sample data *)

Definition json_sample (line : string) : option Message :=
  if String.eqb line "{user}" then Some (user_says "hello")
  else if String.eqb line "{tool}" then Some (tool_reports "Error: failed")
  else None.

Definition asks_for_architect : list Message :=
  [user_says "please use   zen-architect agent for the design";
   assistant_runs ["read_file"]].

Definition mixed_offsets : list Message :=
  [stamped "2024-01-01T00:00:00+00:00"; stamped "2024-01-01T02:00:00+01:00"].

Definition long_description_files : SessionFiles :=
  {| metadata_path := "/p/projects/demo/sessions/root-child/metadata.json";
     metadata :=
       Some {| meta_session_id := None; meta_created := None;
               meta_name := None;
               meta_description := Some (PyStr.join "" (replicate 30 "0123456789"));
               meta_bundle := None; meta_model := None;
               meta_turn_count := Some 9%Z |};
     transcript := iterative_writer |}.

(** * Properties *)

Local Open Scope list_scope.
Local Open Scope nat_scope.

(** ** Counters *)

Section CounterFacts.

Implicit Types (c : gmap string nat) (k l : string).

Lemma counter_get_empty l : counter_get ∅ l = 0.
Proof. unfold counter_get. by rewrite lookup_empty. Qed.

Lemma counter_get_incr k l c :
  counter_get (counter_incr k c) l
  = if decide (k = l) then S (counter_get c l) else counter_get c l.
Proof.
  unfold counter_incr, counter_get at 1.
  case_decide as Hkl.
  - subst l. by rewrite lookup_insert_eq.
  - by rewrite lookup_insert_ne.
Qed.

Lemma counter_total_empty : counter_total ∅ = 0.
Proof. unfold counter_total. by rewrite map_fold_empty. Qed.

Lemma counter_total_insert_fresh k v c :
  c !! k = None → counter_total (<[k := v]> c) = v + counter_total c.
Proof.
  intros Hnone. unfold counter_total.
  rewrite map_fold_insert_L; [done | intros; lia | done].
Qed.

Lemma counter_total_lookup k v c :
  c !! k = Some v → counter_total c = v + counter_total (delete k c).
Proof.
  intros Hsome.
  rewrite <- (insert_delete_id c k v Hsome) at 1.
  apply counter_total_insert_fresh, lookup_delete_eq.
Qed.

(** [c[k] += 1] adds one to the sum of the counts. *)
Lemma counter_total_incr k c :
  counter_total (counter_incr k c) = S (counter_total c).
Proof.
  unfold counter_incr, counter_get.
  destruct (c !! k) as [v|] eqn:Hk; simpl.
  - rewrite (counter_total_lookup k v c Hk).
    rewrite <- insert_delete_eq.
    rewrite counter_total_insert_fresh by apply lookup_delete_eq.
    done.
  - by rewrite counter_total_insert_fresh.
Qed.

(** Counting a list of labels adds, for each label, its number of
    occurrences in the list. *)
Lemma counter_get_count_list labels c l :
  counter_get (foldl (fun c label => counter_incr label c) c labels) l
  = counter_get c l + length (filter (fun label => label = l) labels).
Proof.
  revert c. induction labels as [|label labels IH]; intros c; simpl.
  - lia.
  - rewrite IH, counter_get_incr, filter_cons.
    repeat case_decide; simpl; lia.
Qed.

Lemma filter_eq_absent (labels : list string) l :
  l ∉ labels → filter (fun label => label = l) labels = [].
Proof.
  induction labels as [|label labels IH]; [done|].
  intros Hnotin. apply not_elem_of_cons in Hnotin as [Hne Hrest].
  rewrite filter_cons_False by congruence. by apply IH.
Qed.

Lemma NoDup_filter_eq_length (labels : list string) l :
  NoDup labels → length (filter (fun label => label = l) labels) ≤ 1.
Proof.
  induction 1 as [|label labels Hnotin _ IH]; simpl; [lia|].
  rewrite filter_cons. case_decide as Heq; simpl; [|done].
  subst label. rewrite filter_eq_absent by done. simpl. lia.
Qed.

End CounterFacts.

(** ** Classifier facts *)

Ltac gates pats :=
  unfold categorize_approach, no_gate_fires, append_if;
  destruct (is_iterative (iteration pats)),
           (is_exploratory (exploration pats)),
           (is_implementation (implementation pats)),
           (has_delegation (delegation pats)),
           (has_error_recovery (error_recovery pats)),
           (has_validation (validation pats)); simpl.

Lemma categorize_approach_nonempty pats :
  categorize_approach pats ≠ [].
Proof. gates pats; discriminate. Qed.

Lemma categorize_approach_NoDup pats :
  NoDup (categorize_approach pats).
Proof.
  gates pats; apply (bool_decide_unpack _); by vm_compute.
Qed.

Lemma categorize_approach_fallback pats :
  categorize_approach pats = ["Simple/Conversational"]
  ↔ no_gate_fires pats = true.
Proof. gates pats; split; (done || discriminate). Qed.

(** The fields that [analyze_session] derives from the transcript. *)
Lemma analyze_session_Some fromisoformat files s :
  analyze_session fromisoformat files = Some s →
  transcript files ≠ []
  ∧ patterns s = detect_patterns (transcript files)
  ∧ approaches s = categorize_approach (patterns s)
  ∧ primary_approach s = default "Unknown" (head (approaches s))
  ∧ duration_minutes s
    = calculate_session_duration fromisoformat (transcript files).
Proof.
  unfold analyze_session.
  destruct (metadata files) as [md|]; [|discriminate].
  destruct (transcript files) as [|msg rest]; [discriminate|].
  intros [= <-]. simpl. done.
Qed.

Lemma analyze_all_sessions_elem fromisoformat corpus s :
  s ∈ analyze_all_sessions fromisoformat corpus →
  ∃ files, files ∈ corpus ∧ analyze_session fromisoformat files = Some s.
Proof. unfold analyze_all_sessions. by rewrite list_elem_of_omap. Qed.

(** C1.  Every session record that the analyzer produces has a non-empty
    list of approaches whose first element is [primary_approach]; the list
    is the single label "Simple/Conversational" exactly when no detector
    gate fires. *)
Theorem approaches_nonempty_primary_first fromisoformat files s :
  analyze_session fromisoformat files = Some s →
  1 ≤ length (approaches s)
  ∧ head (approaches s) = Some (primary_approach s)
  ∧ (no_gate_fires (patterns s) = true
     ↔ approaches s = ["Simple/Conversational"]).
Proof.
  intros Hs.
  destruct (analyze_session_Some _ _ _ Hs) as (_ & _ & Happ & Hprim & _).
  rewrite Hprim, Happ.
  pose proof (categorize_approach_nonempty (patterns s)) as Hne.
  destruct (categorize_approach (patterns s)) as [|label rest] eqn:Hcat;
    [done|].
  split; [simpl; lia|]. split; [done|].
  rewrite <- Hcat. symmetry. apply categorize_approach_fallback.
Qed.

Lemma approaches_nonempty_primary_first_witness :
  ∃ s, analyze_session Iso.fromisoformat (sample_files [user_says "hello"])
       = Some s
       ∧ 1 ≤ length (approaches s)
       ∧ head (approaches s) = Some (primary_approach s)
       ∧ (no_gate_fires (patterns s) = true
          ↔ approaches s = ["Simple/Conversational"]).
Proof.
  eexists. split; [reflexivity|].
  apply (approaches_nonempty_primary_first Iso.fromisoformat
           (sample_files [user_says "hello"])).
  reflexivity.
Defined.

(** C2.  When the iteration gate is true the classifier never emits
    "Direct Implementation", whatever the implementation gate says. *)
Theorem iterative_excludes_direct_implementation pats :
  is_iterative (iteration pats) = true →
  "Direct Implementation" ∉ categorize_approach pats.
Proof.
  intros Hiter. unfold categorize_approach, append_if. rewrite Hiter.
  rewrite andb_false_r. simpl.
  destruct (is_exploratory (exploration pats)),
           (has_delegation (delegation pats)),
           (has_error_recovery (error_recovery pats)),
           (has_validation (validation pats)); simpl;
    apply (bool_decide_unpack _); by vm_compute.
Qed.

Lemma iterative_excludes_direct_implementation_witness :
  is_implementation (implementation (detect_patterns iterative_writer)) = true
  ∧ "Direct Implementation"
    ∉ categorize_approach (detect_patterns iterative_writer).
Proof.
  split; [reflexivity|].
  apply (iterative_excludes_direct_implementation
           (detect_patterns iterative_writer)).
  reflexivity.
Defined.

(** ** Error recovery *)

Lemma error_recovery_step_bound messages st entry :
  snd st ≤ fst st →
  snd (error_recovery_step messages st entry)
  ≤ fst (error_recovery_step messages st entry).
Proof.
  destruct st as [errors recoveries], entry as [i msg]. simpl. intros Hle.
  unfold error_recovery_step.
  destruct (role_is msg "tool"); [|done].
  destruct (is_error_text _); [|done].
  destruct (messages !! (i + 1)) as [next|]; [|simpl; lia].
  destruct (role_is next "assistant"); simpl; lia.
Qed.

(** Loop invariant: there are never more recovery attempts than errors. *)
Lemma error_recovery_loop_bound messages entries st :
  snd st ≤ fst st →
  snd (foldl (error_recovery_step messages) st entries)
  ≤ fst (foldl (error_recovery_step messages) st entries).
Proof.
  revert st. induction entries as [|entry entries IH]; intros st Hle; simpl.
  - done.
  - apply IH. by apply error_recovery_step_bound.
Qed.

Lemma Zpos_of_nat_pos (n : nat) : 0 < n → Zpos (Pos.of_nat n) = Z.of_nat n.
Proof.
  intros Hn. rewrite <- positive_nat_Z. f_equal. apply Nat2Pos.id. lia.
Qed.

Lemma ratio_bounds (a b : nat) :
  0 < b → a ≤ b → (0 <= ratio a b)%Q ∧ (ratio a b <= 1)%Q.
Proof.
  intros Hb Hab. unfold ratio, Qle. simpl.
  rewrite Zpos_of_nat_pos by done. lia.
Qed.

Lemma ratio_zero (a b : nat) : (ratio a b == 0)%Q ↔ a = 0.
Proof. unfold ratio, Qeq. simpl. lia. Qed.

(** C3 (as the code has it).  The recovery rate lies in [0,1]; it is 0
    when there is no error, and in general it is 0 exactly when there is
    no recovery attempt, which includes sessions with errors that were
    never followed by an assistant message. *)
Theorem recovery_rate_unit_interval messages :
  let signal := detect_error_recovery messages in
  (0 <= recovery_rate signal)%Q
  ∧ (recovery_rate signal <= 1)%Q
  ∧ (errors_encountered signal = 0 → (recovery_rate signal == 0)%Q)
  ∧ ((recovery_rate signal == 0)%Q ↔ recovery_attempts signal = 0).
Proof.
  unfold detect_error_recovery.
  pose proof (error_recovery_loop_bound messages (enumerate messages) (0, 0))
    as Hle.
  destruct (foldl _ _ _) as [errors recoveries]. simpl in *.
  specialize (Hle (le_n 0)).
  destruct (0 <? errors) eqn:Herr.
  - apply Nat.ltb_lt in Herr.
    destruct (ratio_bounds recoveries errors Herr Hle) as [Hlo Hhi].
    repeat split; try done; try lia; apply ratio_zero.
  - apply Nat.ltb_ge in Herr.
    assert (errors = 0) as -> by lia. assert (recoveries = 0) as -> by lia.
    repeat split; done.
Qed.

(** C3 (as the specification words it) fails: one failing tool call at the
    end of a transcript gives one error, no recovery attempt and rate 0. *)
Lemma recovery_rate_zero_with_errors :
  let signal := detect_error_recovery [tool_reports "Error: failed"] in
  ¬ ((recovery_rate signal == 0)%Q ↔ errors_encountered signal = 0).
Proof.
  simpl. intros [Hzero _].
  assert (1 = 0) as Habs by (apply Hzero; reflexivity).
  discriminate Habs.
Qed.

(** ** Delegation *)

Lemma delegation_calls_count calls count :
  foldl delegation_call_step count calls
  = count + length (filter (fun call => is_delegation_tool call = true) calls).
Proof.
  revert count. induction calls as [|call calls IH]; intros count; simpl.
  - lia.
  - rewrite IH, filter_cons. unfold delegation_call_step, is_delegation_tool.
    destruct (_ || _); case_decide; (done || simpl; lia).
Qed.

Lemma delegation_user_step_spec msg agents count :
  delegation_user_step msg (agents, count)
  = match user_text msg with
    | Some text =>
        if asks_for_agent text
        then (agents ++ option_list (Re.search_use text), S count)
        else (agents, count)
    | None => (agents, count)
    end.
Proof.
  unfold delegation_user_step, user_text, asks_for_agent.
  destruct (default _ (content msg)) as [text|items];
    destruct (role_is msg "user"); try done.
  destruct (_ && _); [|done].
  destruct (Re.search_use text); simpl; [done|by rewrite app_nil_r].
Qed.

Lemma delegation_tool_step_spec msg agents count :
  delegation_tool_step msg (agents, count)
  = (agents,
     count + length (filter (fun call => is_delegation_tool call = true)
                       (if role_is msg "assistant" then tool_calls msg
                        else []))).
Proof.
  unfold delegation_tool_step. destruct (role_is msg "assistant").
  - by rewrite delegation_calls_count.
  - simpl. f_equal. lia.
Qed.

Lemma delegating_texts_cons msg messages :
  delegating_texts (msg :: messages)
  = match user_text msg with
    | Some text =>
        if asks_for_agent text then text :: delegating_texts messages
        else delegating_texts messages
    | None => delegating_texts messages
    end.
Proof.
  unfold delegating_texts. simpl.
  destruct (user_text msg) as [text|]; [|done].
  rewrite filter_cons. destruct (asks_for_agent text); by case_decide.
Qed.

Lemma delegation_tool_calls_cons msg messages :
  delegation_tool_calls (msg :: messages)
  = filter (fun call => is_delegation_tool call = true)
      (if role_is msg "assistant" then tool_calls msg else [])
    ++ delegation_tool_calls messages.
Proof.
  unfold delegation_tool_calls, assistant_calls. simpl. apply filter_app.
Qed.

(** The loop of [detect_delegation_pattern], from any starting state. *)
Lemma delegation_loop messages agents count :
  foldl delegation_step (agents, count) messages
  = (agents ++ omap Re.search_use (delegating_texts messages),
     count + length (delegating_texts messages)
     + length (delegation_tool_calls messages)).
Proof.
  revert agents count.
  induction messages as [|msg messages IH]; intros agents count.
  - simpl. rewrite app_nil_r. f_equal.
    unfold delegating_texts, delegation_tool_calls. simpl. lia.
  - simpl. unfold delegation_step at 2.
    rewrite delegation_user_step_spec, delegating_texts_cons,
      delegation_tool_calls_cons, length_app.
    destruct (user_text msg) as [text|];
      [destruct (asks_for_agent text)|];
      rewrite delegation_tool_step_spec, IH; f_equal; simpl; try lia.
    destruct (Re.search_use text); simpl;
      by rewrite <- ?app_assoc, ?app_nil_r.
Qed.

(** What the detector returns, in terms of the reference counts. *)
Lemma delegation_count_spec messages :
  delegation_count (detect_delegation_pattern messages)
  = length (delegating_texts messages)
    + length (delegation_tool_calls messages).
Proof.
  unfold detect_delegation_pattern. rewrite delegation_loop. simpl. lia.
Qed.

(** C5 (as the code has it).  The delegation count is the number of user
    messages with a plain-text content whose lowercased text contains
    "use " (with the blank) and "agent", plus the number of assistant tool
    calls whose name contains "agent" or "delegate"; the agent names are
    the set of tokens the regular expression finds in those user texts;
    the gate is true exactly when the count is positive. *)
Theorem delegation_count_characterised messages :
  let signal := detect_delegation_pattern messages in
  delegation_count signal
  = length (delegating_texts messages)
    + length (delegation_tool_calls messages)
  ∧ agents_used signal
    = list_to_set (omap Re.search_use (delegating_texts messages))
  ∧ (has_delegation signal = true ↔ 0 < delegation_count signal).
Proof.
  unfold detect_delegation_pattern. rewrite delegation_loop. simpl.
  repeat split; try done; apply Nat.ltb_lt.
Qed.

(** C5 (as the specification words it) fails: "useful agent" contains
    "use" and "agent" but not "use " followed by a blank, and the detector
    does not count it. *)
Lemma delegation_needs_blank_after_use :
  delegation_count (detect_delegation_pattern [user_says "useful agent"])
  ≠ spec_delegation_count [user_says "useful agent"].
Proof. vm_compute. discriminate. Qed.

(** C9.  Tool names are matched as they are: an assistant turn whose tool
    names contain neither "agent" nor "delegate" in lower case leaves the
    count unchanged, even when they contain them in another case; a user
    text is lowercased first, so any casing of "use " and "agent" adds
    one. *)
Theorem delegation_tool_names_case_sensitive messages turn request text :
  role turn = Some "assistant" →
  Forall (fun call => PyStr.contains "agent" (tool call) = false
                      ∧ PyStr.contains "delegate" (tool call) = false)
    (tool_calls turn) →
  role request = Some "user" →
  content request = Some (PlainText text) →
  PyStr.contains "use " (PyStr.lower text) = true →
  PyStr.contains "agent" (PyStr.lower text) = true →
  delegation_count (detect_delegation_pattern (messages ++ [turn]))
  = delegation_count (detect_delegation_pattern messages)
  ∧ delegation_count (detect_delegation_pattern (messages ++ [request]))
    = S (delegation_count (detect_delegation_pattern messages)).
Proof.
  intros Hturn Hcalls Hreq Hcontent Huse Hagent.
  rewrite !delegation_count_spec.
  unfold delegating_texts, delegation_tool_calls, assistant_calls.
  rewrite !omap_app, !map_app, !concat_app, !filter_app, !length_app.
  simpl. unfold user_text, role_is. rewrite Hturn, Hreq, Hcontent. simpl.
  rewrite app_nil_r.
  assert (filter (fun call => is_delegation_tool call = true)
            (tool_calls turn) = []) as ->.
  { induction Hcalls as [|call calls [Ha Hd] _ IH]; [done|].
    rewrite filter_cons_False; [done|].
    unfold is_delegation_tool. rewrite Ha, Hd. discriminate. }
  rewrite filter_cons_True
    by (unfold asks_for_agent; by rewrite Huse, Hagent).
  simpl. lia.
Qed.

Lemma delegation_tool_names_case_sensitive_witness :
  PyStr.contains "agent" (PyStr.lower "Agent") = true
  ∧ PyStr.contains "use " "USE THE AGENT" = false
  ∧ delegation_count
      (detect_delegation_pattern ([] ++ [assistant_runs ["Agent"]]))
    = delegation_count (detect_delegation_pattern [])
  ∧ delegation_count
      (detect_delegation_pattern ([] ++ [user_says "USE THE AGENT"]))
    = S (delegation_count (detect_delegation_pattern [])).
Proof.
  split; [reflexivity|]. split; [reflexivity|].
  apply (delegation_tool_names_case_sensitive
           [] (assistant_runs ["Agent"]) (user_says "USE THE AGENT")
           "USE THE AGENT").
  - reflexivity.
  - simpl. repeat constructor.
  - reflexivity.
  - reflexivity.
  - reflexivity.
  - reflexivity.
Defined.

(** ** Exploration *)

Lemma exploration_calls_total calls usage :
  counter_total (foldl exploration_call_step usage calls)
  = counter_total usage
    + length (filter (fun call => is_exploration_tool (tool call) = true)
                calls).
Proof.
  revert usage. induction calls as [|call calls IH]; intros usage; simpl.
  - lia.
  - rewrite IH, filter_cons. unfold exploration_call_step.
    destruct (is_exploration_tool (tool call)); case_decide; try done;
      rewrite ?counter_total_incr; simpl; lia.
Qed.

Lemma exploration_calls_cons msg messages :
  exploration_calls (msg :: messages)
  = filter (fun call => is_exploration_tool (tool call) = true)
      (if role_is msg "assistant" then tool_calls msg else [])
    ++ exploration_calls messages.
Proof.
  unfold exploration_calls, assistant_calls. simpl. apply filter_app.
Qed.

Lemma parallel_turns_cons msg messages :
  parallel_turns (msg :: messages)
  = if role_is msg "assistant" && (1 <? length (tool_calls msg))
    then msg :: parallel_turns messages else parallel_turns messages.
Proof.
  unfold parallel_turns. rewrite filter_cons.
  destruct (Nat.ltb_spec 1 (length (tool_calls msg))) as [Hpar|Hpar];
    destruct (role_is msg "assistant"); cbn [andb];
    case_decide as Hd; try done; exfalso.
  - apply Hd. by split.
  - destruct Hd as [Hd _]. discriminate.
  - destruct Hd as [_ Hd]. lia.
  - destruct Hd as [Hd _]. discriminate.
Qed.

(** The loop of [detect_exploration_pattern], from any starting state. *)
Lemma exploration_loop messages usage parallel :
  counter_total (fst (foldl exploration_step (usage, parallel) messages))
  = counter_total usage + length (exploration_calls messages)
  ∧ snd (foldl exploration_step (usage, parallel) messages)
    = parallel + length (parallel_turns messages).
Proof.
  revert usage parallel.
  induction messages as [|msg messages IH]; intros usage parallel.
  - simpl. unfold exploration_calls, parallel_turns. simpl. lia.
  - rewrite exploration_calls_cons, parallel_turns_cons, length_app.
    cbn [foldl exploration_step].
    destruct (role_is msg "assistant"); cbn [andb].
    + destruct (IH (foldl exploration_call_step usage (tool_calls msg))
                  (if 1 <? length (tool_calls msg) then S parallel
                   else parallel)) as [-> ->].
      rewrite exploration_calls_total.
      destruct (1 <? length (tool_calls msg)); simpl; lia.
    + destruct (IH usage parallel) as [-> ->]. simpl. lia.
Qed.

Lemma single_read_turns messages :
  Forall single_read_turn messages →
  length (exploration_calls messages) = length messages
  ∧ parallel_turns messages = [].
Proof.
  induction 1 as [|msg messages (Hrole & call & Hcalls & Htool) _ [IH1 IH2]].
  - done.
  - rewrite exploration_calls_cons, parallel_turns_cons, length_app, IH1, IH2.
    unfold role_is. rewrite Hrole, Hcalls. simpl.
    rewrite filter_cons_True by (by rewrite Htool). done.
Qed.

(** C6.  The exploration gate is true exactly when the assistant issued at
    least five calls to exploration tools or at least two turns with more
    than one tool call; six turns with a single [read_file] call each give
    gate true, count 6 and no parallel search. *)
Theorem exploration_gate_characterised messages :
  let signal := detect_exploration_pattern messages in
  exploration_tool_count signal = length (exploration_calls messages)
  ∧ parallel_searches signal = length (parallel_turns messages)
  ∧ (is_exploratory signal = true
     ↔ 5 ≤ length (exploration_calls messages)
       ∨ 2 ≤ length (parallel_turns messages))
  ∧ (length messages = 6 → Forall single_read_turn messages →
     is_exploratory signal = true
     ∧ exploration_tool_count signal = 6
     ∧ parallel_searches signal = 0).
Proof.
  unfold detect_exploration_pattern.
  destruct (exploration_loop messages ∅ 0) as [Htotal Hpar].
  destruct (foldl exploration_step (∅, 0) messages) as [usage parallel].
  simpl in *. rewrite counter_total_empty in Htotal. simpl in Htotal.
  rewrite Htotal, Hpar.
  assert (Hgate :
    (5 <=? length (exploration_calls messages))
    || (2 <=? length (parallel_turns messages)) = true
    ↔ 5 ≤ length (exploration_calls messages)
      ∨ 2 ≤ length (parallel_turns messages)).
  { rewrite orb_true_iff, !Nat.leb_le. done. }
  split; [done|]. split; [done|]. split; [exact Hgate|].
  intros Hlen Hall.
  destruct (single_read_turns messages Hall) as [Hcalls Hturns].
  rewrite Hcalls, Hturns, Hlen. done.
Qed.

Lemma exploration_gate_characterised_witness :
  let signal := detect_exploration_pattern six_reads in
  is_exploratory signal = true
  ∧ exploration_tool_count signal = 6
  ∧ parallel_searches signal = 0.
Proof.
  apply (exploration_gate_characterised six_reads).
  - reflexivity.
  - repeat constructor; by eexists.
Defined.

(** ** Session duration *)

Section RoundingFacts.

Local Open Scope Q_scope.



































End RoundingFacts.

Section DurationFacts.

Variable fromisoformat : string -> option datetime.




End DurationFacts.







(** ** Corpus aggregation *)

Lemma count_where_le gate sessions :
  count_where gate sessions ≤ length sessions.
Proof. unfold count_where. apply length_filter. Qed.

(** A session whose labels are pairwise distinct adds at most one to the
    count of any label. *)
Lemma approach_counts_bound sessions label counts :
  Forall (fun s => NoDup (approaches s)) sessions →
  counter_get (foldl count_approaches counts sessions) label
  ≤ counter_get counts label + length sessions.
Proof.
  intros Hall. revert counts.
  induction Hall as [|s sessions Hs _ IH]; intros counts; simpl.
  - lia.
  - etrans; [apply IH|]. unfold count_approaches.
    rewrite counter_get_count_list.
    pose proof (NoDup_filter_eq_length (approaches s) label Hs). lia.
Qed.

Lemma analyzed_sessions_NoDup fromisoformat corpus :
  Forall (fun s => NoDup (approaches s))
    (analyze_all_sessions fromisoformat corpus).
Proof.
  apply Forall_forall. intros s Hs.
  apply analyze_all_sessions_elem in Hs as (files & _ & Hs).
  destruct (analyze_session_Some _ _ _ Hs) as (_ & _ & -> & _).
  apply categorize_approach_NoDup.
Qed.

(** C8.  In the summary of the analyzed corpus, the count of every label
    in the approach frequencies and each of the six pattern counts is at
    most the number of sessions. *)
Theorem summary_counts_bounded fromisoformat corpus label :
  let sessions := analyze_all_sessions fromisoformat corpus in
  let summary := generate_summary_statistics sessions in
  let stats := pattern_statistics summary in
  total_sessions summary = length sessions
  ∧ counter_get (approach_frequencies summary) label ≤ total_sessions summary
  ∧ iterative_sessions stats ≤ total_sessions summary
  ∧ exploratory_sessions stats ≤ total_sessions summary
  ∧ implementation_sessions stats ≤ total_sessions summary
  ∧ delegated_sessions stats ≤ total_sessions summary
  ∧ validated_sessions stats ≤ total_sessions summary
  ∧ error_recovery_sessions stats ≤ total_sessions summary.
Proof.
  simpl. split; [done|]. split.
  - etrans; [apply approach_counts_bound, analyzed_sessions_NoDup|].
    by rewrite counter_get_empty.
  - repeat split; apply count_where_le.
Qed.

(** ** Primary-approach distribution *)

Lemma csv_row_primary s :
  csv_row s !! "Primary Approach" = Some (primary_approach s).
Proof.
  unfold csv_row.
  rewrite !lookup_insert_ne by discriminate. apply lookup_insert_eq.
Qed.

Lemma primary_approach_truthy fromisoformat files s :
  analyze_session fromisoformat files = Some s →
  PyStr.truthy (primary_approach s) = true.
Proof.
  intros Hs.
  destruct (analyze_session_Some _ _ _ Hs) as (_ & _ & Happ & -> & _).
  rewrite Happ. gates (patterns s); reflexivity.
Qed.

(** The loop of the dashboard's primary counter over exported rows. *)
Lemma primary_counter_loop sessions counter label :
  Forall (fun s => PyStr.truthy (primary_approach s) = true) sessions →
  counter_get (foldl primary_counter_step counter (map csv_row sessions)) label
  = counter_get counter label
    + length (sessions_with_primary label sessions)
  ∧ counter_total (foldl primary_counter_step counter (map csv_row sessions))
    = counter_total counter + length sessions.
Proof.
  intros Hall. revert counter.
  induction Hall as [|s sessions Hs _ IH]; intros counter; simpl.
  - unfold sessions_with_primary. simpl. lia.
  - destruct (IH (primary_counter_step counter (csv_row s))) as [-> ->].
    unfold primary_counter_step. rewrite csv_row_primary. simpl.
    rewrite Hs, counter_get_incr, counter_total_incr.
    unfold sessions_with_primary. rewrite filter_cons.
    repeat case_decide; simpl; (done || lia).
Qed.

(** C4 (as the code has it).  The primary-approach distribution is the
    counter that the dashboard builds from the exported rows: for every
    label it holds the number of sessions whose primary label it is, and
    its counts add up to the number of sessions. *)
Theorem primary_distribution_partitions_sessions fromisoformat corpus :
  let sessions := analyze_all_sessions fromisoformat corpus in
  let distribution := primary_counter (map csv_row sessions) in
  (∀ label,
     counter_get distribution label
     = length (sessions_with_primary label sessions))
  ∧ counter_total distribution = length sessions.
Proof.
  simpl. unfold primary_counter.
  assert (Forall (fun s => PyStr.truthy (primary_approach s) = true)
            (analyze_all_sessions fromisoformat corpus)) as Hall.
  { apply Forall_forall. intros s Hs.
    apply analyze_all_sessions_elem in Hs as (files & _ & Hs).
    by eapply primary_approach_truthy. }
  split.
  - intros label.
    destruct (primary_counter_loop _ ∅ label Hall) as [-> _].
    by rewrite counter_get_empty.
  - destruct (primary_counter_loop _ ∅ "" Hall) as [_ ->].
    by rewrite counter_total_empty.
Qed.

(** C4 (as the specification words it) fails: the summary of
    [generate_summary_statistics] holds two mappings, the approach
    frequencies and the sessions per date.  The first counts every label
    of a session: for one session with two labels it counts the second
    label too, sums to 2 and differs from the primary-approach
    distribution; the second is keyed by date. *)
Lemma summary_counts_every_label :
  let sessions :=
    analyze_all_sessions Iso.fromisoformat [sample_files iterative_explorer] in
  let summary := generate_summary_statistics sessions in
  map primary_approach sessions = ["Iterative Refinement"]
  ∧ total_sessions summary = 1
  ∧ counter_get (approach_frequencies summary) "Exploratory Investigation" = 1
  ∧ counter_total (approach_frequencies summary) ≠ total_sessions summary
  ∧ approach_frequencies summary ≠ primary_counter (map csv_row sessions)
  ∧ sessions_by_date summary = [("2024-01-01", 1)].
Proof.
  split; [reflexivity|]. split; [reflexivity|]. split; [reflexivity|].
  split; [by vm_compute|]. split; [|reflexivity].
  intros Heq.
  apply (f_equal (fun c => counter_get c "Exploratory Investigation")) in Heq.
  vm_compute in Heq. discriminate Heq.
Qed.

(** * Further properties of the detectors *)

(** ** Iteration *)

Lemma iteration_loop messages count :
  foldl iteration_step count messages
  = count
    + length (filter (fun msg => is_refinement_request msg = true) messages).
Proof.
  revert count. induction messages as [|msg messages IH]; intros count; simpl.
  - lia.
  - rewrite IH, filter_cons. unfold iteration_step, is_refinement_request.
    destruct (role_is msg "user"); cbn [andb];
      [|rewrite decide_False by done; lia].
    destruct (existsb _ refinement_keywords);
      [rewrite decide_True by done|rewrite decide_False by done];
      cbn [length]; lia.
Qed.

Lemma refinement_request_is_user msg :
  is_refinement_request msg = true → role_is msg "user" = true.
Proof. unfold is_refinement_request. by intros [? _]%andb_true_iff. Qed.

Lemma filter_length_mono {A} (P Q : A → Prop)
  `{∀ x, Decision (P x)} `{∀ x, Decision (Q x)} (l : list A) :
  (∀ x, P x → Q x) → length (filter P l) ≤ length (filter Q l).
Proof.
  intros HPQ. induction l as [|x l IH]; [done|].
  rewrite !filter_cons.
  destruct (decide (P x)) as [HP|HP], (decide (Q x)) as [HQ|HQ]; simpl;
    try lia.
  destruct HQ. by apply HPQ.
Qed.

(** X1.  The iteration count is the number of user messages whose
    lowercased text contains a refinement keyword; it never exceeds the
    number of user messages, and the gate is true exactly from two such
    messages on. *)
Theorem iteration_count_characterised messages :
  let signal := detect_iteration_pattern messages in
  iteration_count signal
  = length (filter (fun msg => is_refinement_request msg = true) messages)
  ∧ iteration_count signal
    ≤ length (filter (fun msg => role_is msg "user" = true) messages)
  ∧ (is_iterative signal = true ↔ 2 ≤ iteration_count signal).
Proof.
  unfold detect_iteration_pattern. cbn [iteration_count is_iterative].
  rewrite iteration_loop, Nat.add_0_l.
  split; [done|]. split.
  - apply filter_length_mono, refinement_request_is_user.
  - apply Nat.leb_le.
Qed.

(** ** Implementation *)

Lemma calls_named_cons tool_name msg messages :
  calls_named tool_name (msg :: messages)
  = filter (fun call => tool call = tool_name)
      (if role_is msg "assistant" then tool_calls msg else [])
    ++ calls_named tool_name messages.
Proof. unfold calls_named, assistant_calls. simpl. apply filter_app. Qed.

Lemma implementation_call_step_spec writes edits call :
  implementation_call_step (writes, edits) call
  = (writes + (if decide (tool call = "write_file") then 1 else 0),
     edits + (if decide (tool call = "edit_file") then 1 else 0)).
Proof.
  unfold implementation_call_step.
  destruct (String.eqb_spec (tool call) "write_file") as [Hw|Hw];
    destruct (String.eqb_spec (tool call) "edit_file") as [He|He];
    repeat case_decide; try congruence; f_equal; lia.
Qed.

Lemma implementation_calls_count calls writes edits :
  foldl implementation_call_step (writes, edits) calls
  = (writes + length (filter (fun call => tool call = "write_file") calls),
     edits + length (filter (fun call => tool call = "edit_file") calls)).
Proof.
  revert writes edits.
  induction calls as [|call calls IH]; intros writes edits; cbn [foldl].
  - simpl. f_equal; lia.
  - rewrite implementation_call_step_spec, IH, !filter_cons.
    repeat case_decide; simpl; f_equal; lia.
Qed.

Lemma implementation_loop messages writes edits :
  foldl implementation_step (writes, edits) messages
  = (writes + length (calls_named "write_file" messages),
     edits + length (calls_named "edit_file" messages)).
Proof.
  revert writes edits.
  induction messages as [|msg messages IH]; intros writes edits.
  - simpl. unfold calls_named. simpl. f_equal; lia.
  - cbn [foldl]. rewrite !calls_named_cons, !length_app.
    unfold implementation_step at 2.
    destruct (role_is msg "assistant").
    + rewrite implementation_calls_count, IH. f_equal; lia.
    + rewrite IH. simpl. done.
Qed.

(** X2.  The implementation detector counts the assistant tool calls named
    exactly [write_file] and [edit_file]; the total is their sum, and the
    gate is true exactly from three file operations on. *)
Theorem implementation_counts_characterised messages :
  let signal := detect_implementation_pattern messages in
  write_operations signal = length (calls_named "write_file" messages)
  ∧ edit_operations signal = length (calls_named "edit_file" messages)
  ∧ total_file_ops signal = write_operations signal + edit_operations signal
  ∧ total_file_ops signal ≤ length (assistant_calls messages)
  ∧ (is_implementation signal = true ↔ 3 ≤ total_file_ops signal).
Proof.
  unfold detect_implementation_pattern.
  rewrite implementation_loop, !Nat.add_0_l.
  cbn [write_operations edit_operations total_file_ops is_implementation].
  split; [done|]. split; [done|]. split; [done|]. split; [|apply Nat.leb_le].
  unfold calls_named.
  induction (assistant_calls messages) as [|call calls IH]; [done|].
  rewrite !filter_cons.
  destruct (decide (tool call = "write_file")) as [Hw|Hw],
           (decide (tool call = "edit_file")) as [He|He]; simpl; try lia.
  rewrite Hw in He. discriminate He.
Qed.

(** ** Error recovery *)

Lemma error_recovery_step_spec messages errors recoveries i msg :
  error_recovery_step messages (errors, recoveries) (i, msg)
  = (errors + (if is_error_report msg then 1 else 0),
     recoveries
     + (if is_error_report msg
           && match messages !! (i + 1) with
              | Some next => role_is next "assistant"
              | None => false
              end
        then 1 else 0)).
Proof.
  unfold error_recovery_step, is_error_report.
  destruct (role_is msg "tool"); cbn [andb]; [|f_equal; lia].
  destruct (is_error_text _); cbn [andb]; [|f_equal; lia].
  destruct (messages !! (i + 1)) as [next|]; [|f_equal; lia].
  destruct (role_is next "assistant"); f_equal; lia.
Qed.

(** The loop over [enumerate(messages)], seen from any position: [seen]
    are the messages already visited. *)
Lemma error_recovery_loop seen rest errors recoveries :
  foldl (error_recovery_step (seen ++ rest)) (errors, recoveries)
    (imap (fun i msg => (length seen + i, msg)) rest)
  = (errors + length (filter (fun msg => is_error_report msg = true) rest),
     recoveries + recovered_errors rest).
Proof.
  revert seen errors recoveries.
  induction rest as [|msg rest IH]; intros seen errors recoveries.
  - simpl. f_equal; lia.
  - rewrite imap_cons. cbn [foldl].
    rewrite error_recovery_step_spec.
    replace (length seen + 0 + 1) with (length seen + 1) by lia.
    rewrite lookup_app_r by lia.
    replace (length seen + 1 - length seen) with 1 by lia.
    assert (imap ((fun i x => (length seen + i, x)) ∘ S) rest
            = imap (fun i x => (length (seen ++ [msg]) + i, x)) rest) as ->.
    { apply imap_ext. intros i x _. simpl. rewrite length_app. simpl.
      f_equal. lia. }
    replace (seen ++ msg :: rest) with ((seen ++ [msg]) ++ rest)
      by (by rewrite <- app_assoc).
    rewrite IH, filter_cons.
    destruct rest as [|next rest]; simpl;
      destruct (is_error_report msg); simpl;
      try destruct (role_is next "assistant"); simpl;
      repeat case_decide; try done; simpl; f_equal; lia.
Qed.

Lemma recovered_errors_le messages :
  recovered_errors messages
  ≤ length (filter (fun msg => is_error_report msg = true) messages).
Proof.
  induction messages as [|msg rest IH]; [done|].
  rewrite filter_cons. cbn [recovered_errors].
  destruct rest as [|next rest]; [lia|].
  destruct (is_error_report msg); cbn [andb];
    [rewrite decide_True by done|rewrite decide_False by done];
    try destruct (role_is next "assistant"); cbn [length]; lia.
Qed.

Lemma error_report_is_tool msg :
  is_error_report msg = true → role_is msg "tool" = true.
Proof. unfold is_error_report. by intros [? _]%andb_true_iff. Qed.

(** X3.  The error count is the number of tool messages that mention
    "error" or "failed"; the recovery attempts are those of them that an
    assistant message follows immediately, so there are never more
    attempts than errors nor more errors than tool messages, and the gate
    is true exactly when there is a recovery attempt. *)
Theorem error_recovery_characterised messages :
  let signal := detect_error_recovery messages in
  errors_encountered signal
  = length (filter (fun msg => is_error_report msg = true) messages)
  ∧ recovery_attempts signal = recovered_errors messages
  ∧ recovery_attempts signal ≤ errors_encountered signal
  ∧ errors_encountered signal
    ≤ length (filter (fun msg => role_is msg "tool" = true) messages)
  ∧ (has_error_recovery signal = true ↔ 0 < recovery_attempts signal).
Proof.
  unfold detect_error_recovery, enumerate.
  pose proof (error_recovery_loop [] messages 0 0) as Hloop.
  cbn [app length Nat.add] in Hloop. rewrite Hloop.
  cbn [errors_encountered recovery_attempts has_error_recovery].
  pose proof (recovered_errors_le messages) as Hle.
  split; [done|]. split; [done|]. split; [done|]. split.
  - apply filter_length_mono, error_report_is_tool.
  - rewrite andb_true_iff, !Nat.ltb_lt. lia.
Qed.

(** ** Planning versus execution *)

Lemma blocks_of_type_cons ty msg messages :
  blocks_of_type ty (msg :: messages)
  = filter (fun item => block_type item = Some ty)
      (if role_is msg "assistant" then
         match default (BlockSequence []) (content msg) with
         | BlockSequence items => items
         | PlainText _ => []
         end
       else [])
    ++ blocks_of_type ty messages.
Proof. unfold blocks_of_type, assistant_blocks. simpl. apply filter_app. Qed.

Lemma planning_item_step_spec planning execution item :
  planning_item_step (planning, execution) item
  = (planning + (if decide (block_type item = Some "thinking") then 1 else 0),
     execution
     + (if decide (block_type item = Some "tool_call") then 1 else 0)).
Proof.
  unfold planning_item_step.
  destruct (block_type item) as [ty|].
  - destruct (String.eqb_spec ty "thinking") as [Ht|Ht];
      destruct (String.eqb_spec ty "tool_call") as [He|He];
      repeat case_decide; try congruence; f_equal; lia.
  - repeat case_decide; try congruence; f_equal; lia.
Qed.

Lemma planning_items_count items planning execution :
  foldl planning_item_step (planning, execution) items
  = (planning
     + length (filter (fun item => block_type item = Some "thinking") items),
     execution
     + length (filter (fun item => block_type item = Some "tool_call") items)).
Proof.
  revert planning execution.
  induction items as [|item items IH]; intros planning execution; cbn [foldl].
  - simpl. f_equal; lia.
  - rewrite planning_item_step_spec, IH, !filter_cons.
    repeat case_decide; simpl; f_equal; lia.
Qed.

Lemma planning_loop messages planning execution :
  foldl planning_step (planning, execution) messages
  = (planning + length (blocks_of_type "thinking" messages),
     execution + length (blocks_of_type "tool_call" messages)).
Proof.
  revert planning execution.
  induction messages as [|msg messages IH]; intros planning execution.
  - simpl. unfold blocks_of_type. simpl. f_equal; lia.
  - cbn [foldl]. rewrite !blocks_of_type_cons, !length_app.
    unfold planning_step at 2.
    destruct (role_is msg "assistant"); [|rewrite IH; simpl; done].
    destruct (default (BlockSequence []) (content msg)) as [text|items].
    + rewrite IH. simpl. done.
    + rewrite planning_items_count, IH. f_equal; lia.
Qed.

Lemma Qgtb_ratio a b n d :
  0 < b → Qgtb (ratio a b) (Z.pos n # d) = true
          ↔ (Z.pos n * Z.of_nat b < Z.of_nat a * Z.pos d)%Z.
Proof.
  intros Hb. unfold Qgtb. rewrite negb_true_iff.
  rewrite <- not_true_iff_false, Qle_bool_iff.
  unfold Qle, ratio. simpl. rewrite Zpos_of_nat_pos by done. lia.
Qed.

Lemma Qgtb_ratio_below a b n d :
  0 < b → Qgtb (Z.pos n # d) (ratio a b) = true
          ↔ (Z.of_nat a * Z.pos d < Z.pos n * Z.of_nat b)%Z.
Proof.
  intros Hb. unfold Qgtb. rewrite negb_true_iff.
  rewrite <- not_true_iff_false, Qle_bool_iff.
  unfold Qle, ratio. simpl. rewrite Zpos_of_nat_pos by done. lia.
Qed.

Ltac settle_balance :=
  first [done | lia | (left; lia) | (right; lia) | (exfalso; lia)
        | intuition lia | intuition discriminate].

(** X4.  The planning ratio lies in [0,1].  A session is "planning-heavy"
    exactly when more than three fifths of its thinking and tool-call
    blocks are thinking blocks, "execution-heavy" exactly when fewer than
    three tenths are or when it has no such block at all, and "balanced"
    otherwise. *)
Theorem planning_balance_characterised messages :
  let signal := detect_planning_vs_execution messages in
  let planning := length (blocks_of_type "thinking" messages) in
  let execution := length (blocks_of_type "tool_call" messages) in
  planning_messages signal = planning
  ∧ execution_messages signal = execution
  ∧ (0 <= planning_ratio signal)%Q ∧ (planning_ratio signal <= 1)%Q
  ∧ (approach signal = "planning-heavy"
     ↔ 3 * (planning + execution) < 5 * planning)
  ∧ (approach signal = "execution-heavy"
     ↔ planning + execution = 0 ∨ 10 * planning < 3 * (planning + execution))
  ∧ (approach signal = "balanced"
     ↔ 0 < planning + execution
       ∧ 3 * (planning + execution) ≤ 10 * planning
       ∧ 5 * planning ≤ 3 * (planning + execution)).
Proof.
  unfold detect_planning_vs_execution.
  rewrite planning_loop, !Nat.add_0_l.
  set (planning := length (blocks_of_type "thinking" messages)).
  set (execution := length (blocks_of_type "tool_call" messages)).
  cbn [planning_messages execution_messages planning_ratio approach].
  split; [done|]. split; [done|].
  destruct (Nat.ltb_spec 0 (planning + execution)) as [Hpos|Hzero].
  - destruct (ratio_bounds planning (planning + execution)) as [Hlo Hhi];
      [done|lia|].
    split; [done|]. split; [done|].
    pose proof (Qgtb_ratio planning (planning + execution) 6 10 Hpos) as Hhigh.
    pose proof (Qgtb_ratio_below planning (planning + execution) 3 10 Hpos)
      as Hlow.
    destruct (Qgtb (ratio planning (planning + execution)) (6 # 10));
      [|destruct (Qgtb (3 # 10) (ratio planning (planning + execution)))].
    + assert (3 * (planning + execution) < 5 * planning)
        by (destruct Hhigh as [Hhigh _]; specialize (Hhigh eq_refl); lia).
      repeat split; intros; settle_balance.
    + assert (10 * planning < 3 * (planning + execution))
        by (destruct Hlow as [Hlow _]; specialize (Hlow eq_refl); lia).
      repeat split; intros; settle_balance.
    + assert (¬ 3 * (planning + execution) < 5 * planning)
        by (intros ?; destruct Hhigh as [_ Hhigh];
            enough (false = true) by done; apply Hhigh; lia).
      assert (¬ 10 * planning < 3 * (planning + execution))
        by (intros ?; destruct Hlow as [_ Hlow];
            enough (false = true) by done; apply Hlow; lia).
      repeat split; intros; settle_balance.
  - assert (planning = 0) as Hp by lia. assert (execution = 0) as He by lia.
    rewrite Hp, He. cbn.
    repeat split; intros; settle_balance.
Qed.

(** ** Validation *)

Lemma assistant_calls_cons msg messages :
  assistant_calls (msg :: messages)
  = (if role_is msg "assistant" then tool_calls msg else [])
    ++ assistant_calls messages.
Proof. reflexivity. Qed.

Lemma validation_call_step_spec tests checks revs call :
  validation_call_step (tests, checks, revs) call
  = (tests + (if mentions "test" call then 1 else 0),
     checks + (if String.eqb (tool call) "python_check" then 1 else 0),
     revs + (if mentions "review" call then 1 else 0)).
Proof.
  unfold validation_call_step.
  destruct (mentions "test" call), (String.eqb (tool call) "python_check"),
    (mentions "review" call); repeat f_equal; lia.
Qed.

Lemma validation_calls_count calls tests checks revs :
  let '(tests', checks', revs') :=
    foldl validation_call_step (tests, checks, revs) calls in
  tests' + checks' + revs'
  = tests + checks + revs + sum_list (map validation_weight calls).
Proof.
  revert tests checks revs.
  induction calls as [|call calls IH]; intros tests checks revs; cbn [foldl].
  - simpl. lia.
  - rewrite validation_call_step_spec.
    specialize (IH (tests + (if mentions "test" call then 1 else 0))
                  (checks + (if String.eqb (tool call) "python_check"
                             then 1 else 0))
                  (revs + (if mentions "review" call then 1 else 0))).
    destruct (foldl _ _ calls) as [[tests' checks'] revs'].
    rewrite IH. simpl. unfold validation_weight. lia.
Qed.

Lemma validation_loop messages tests checks revs :
  let '(tests', checks', revs') :=
    foldl validation_step (tests, checks, revs) messages in
  tests' + checks' + revs'
  = tests + checks + revs
    + sum_list (map validation_weight (assistant_calls messages)).
Proof.
  revert tests checks revs.
  induction messages as [|msg messages IH]; intros tests checks revs.
  - simpl. lia.
  - cbn [foldl]. rewrite assistant_calls_cons, map_app, sum_list_with_app.
    unfold validation_step at 2.
    destruct (role_is msg "assistant").
    + pose proof (validation_calls_count (tool_calls msg) tests checks revs)
        as Hcalls.
      destruct (foldl validation_call_step _ _) as [[tests1 checks1] revs1].
      specialize (IH tests1 checks1 revs1).
      destruct (foldl validation_step _ _) as [[tests' checks'] revs'].
      lia.
    + specialize (IH tests checks revs).
      destruct (foldl validation_step _ _) as [[tests' checks'] revs'].
      simpl. lia.
Qed.

Lemma validation_weight_bounds calls :
  length (filter (fun call => is_validation_call call = true) calls)
  ≤ sum_list (map validation_weight calls)
  ∧ sum_list (map validation_weight calls)
    ≤ 3 * length (filter (fun call => is_validation_call call = true) calls).
Proof.
  induction calls as [|call calls [IHlo IHhi]]; [simpl; lia|].
  rewrite filter_cons. cbn [map sum_list sum_list_with].
  unfold is_validation_call, validation_weight in *.
  destruct (mentions "test" call), (String.eqb (tool call) "python_check"),
    (mentions "review" call); cbn [orb];
    [rewrite decide_True by done ..|rewrite decide_False by done];
    cbn [length]; unfold id in *; lia.
Qed.

(** X5.  The validation gate is true exactly when some assistant tool call
    mentions "test" or "review" in its name or arguments or is named
    [python_check]; every such call adds between one and three to
    [total_validation], which is the sum of the three counters. *)
Theorem validation_gate_characterised messages :
  let signal := detect_validation_pattern messages in
  let validating :=
    filter (fun call => is_validation_call call = true)
      (assistant_calls messages) in
  total_validation signal
  = test_runs signal + code_checks signal + reviews signal
  ∧ length validating ≤ total_validation signal
  ∧ total_validation signal ≤ 3 * length validating
  ∧ (has_validation signal = true
     ↔ ∃ call, call ∈ assistant_calls messages
               ∧ is_validation_call call = true).
Proof.
  unfold detect_validation_pattern.
  pose proof (validation_loop messages 0 0 0) as Hloop.
  destruct (foldl validation_step (0, 0, 0) messages)
    as [[tests checks] revs].
  cbn [test_runs code_checks reviews total_validation has_validation].
  destruct (validation_weight_bounds (assistant_calls messages)) as [Hlo Hhi].
  split; [done|]. split; [lia|]. split; [lia|].
  rewrite Nat.ltb_lt. split.
  - intros Hpos.
    destruct (filter _ (assistant_calls messages)) as [|call calls] eqn:Hf;
      [simpl in *; lia|].
    exists call.
    assert (call ∈ call :: calls) as Hin by left.
    rewrite <- Hf in Hin. apply list_elem_of_filter in Hin as [? ?]. done.
  - intros (call & Hin & Hcall).
    assert (call ∈ filter (fun call => is_validation_call call = true)
                     (assistant_calls messages)) as Hf
      by (by apply list_elem_of_filter).
    destruct (filter _ (assistant_calls messages)); [inversion Hf|].
    simpl in *. lia.
Qed.

(** ** The gates as functions of the reference counts *)

Lemma is_iterative_spec messages :
  is_iterative (detect_iteration_pattern messages)
  = (2 <=? length (filter (fun msg => is_refinement_request msg = true)
                     messages)).
Proof.
  unfold detect_iteration_pattern. cbn [is_iterative].
  by rewrite iteration_loop, Nat.add_0_l.
Qed.

Lemma is_exploratory_spec messages :
  is_exploratory (detect_exploration_pattern messages)
  = (5 <=? length (exploration_calls messages))
    || (2 <=? length (parallel_turns messages)).
Proof.
  unfold detect_exploration_pattern.
  destruct (exploration_loop messages ∅ 0) as [Htotal Hpar].
  destruct (foldl exploration_step (∅, 0) messages) as [usage parallel].
  cbn [is_exploratory fst snd] in *.
  by rewrite Htotal, Hpar, counter_total_empty, !Nat.add_0_l.
Qed.

Lemma is_implementation_spec messages :
  is_implementation (detect_implementation_pattern messages)
  = (3 <=? length (calls_named "write_file" messages)
           + length (calls_named "edit_file" messages)).
Proof.
  unfold detect_implementation_pattern.
  by rewrite implementation_loop, !Nat.add_0_l.
Qed.

Lemma has_delegation_spec messages :
  has_delegation (detect_delegation_pattern messages)
  = (0 <? length (delegating_texts messages)
          + length (delegation_tool_calls messages)).
Proof.
  unfold detect_delegation_pattern. rewrite delegation_loop.
  cbn [has_delegation]. by rewrite !Nat.add_0_l.
Qed.

Lemma has_error_recovery_spec messages :
  has_error_recovery (detect_error_recovery messages)
  = (0 <? length (filter (fun msg => is_error_report msg = true) messages))
    && (0 <? recovered_errors messages).
Proof.
  unfold detect_error_recovery, enumerate.
  pose proof (error_recovery_loop [] messages 0 0) as Hloop.
  cbn [app length Nat.add] in Hloop. by rewrite Hloop.
Qed.

Lemma has_validation_spec messages :
  has_validation (detect_validation_pattern messages)
  = (0 <? sum_list (map validation_weight (assistant_calls messages))).
Proof.
  unfold detect_validation_pattern.
  pose proof (validation_loop messages 0 0 0) as Hloop.
  destruct (foldl validation_step (0, 0, 0) messages)
    as [[tests checks] revs].
  cbn [has_validation]. by rewrite Hloop.
Qed.

Lemma assistant_calls_app messages more :
  assistant_calls (messages ++ more)
  = assistant_calls messages ++ assistant_calls more.
Proof. unfold assistant_calls. by rewrite map_app, concat_app. Qed.

Lemma recovered_errors_app_le messages more :
  recovered_errors messages ≤ recovered_errors (messages ++ more).
Proof.
  induction messages as [|msg rest IH]; [simpl; lia|].
  destruct rest as [|next rest]; [simpl; lia|].
  change ((msg :: next :: rest) ++ more)
    with (msg :: next :: (rest ++ more)).
  cbn [recovered_errors] in *.
  change (next :: rest ++ more) with ((next :: rest) ++ more) in *.
  cbn [recovered_errors app] in IH |- *. lia.
Qed.

(** X6.  Every gate is monotone in the transcript: a gate that is true for
    a transcript stays true when further messages are appended. *)
Theorem gates_survive_more_messages messages more :
  let before := detect_patterns messages in
  let after := detect_patterns (messages ++ more) in
  (is_iterative (iteration before) = true
   → is_iterative (iteration after) = true)
  ∧ (is_exploratory (exploration before) = true
     → is_exploratory (exploration after) = true)
  ∧ (is_implementation (implementation before) = true
     → is_implementation (implementation after) = true)
  ∧ (has_delegation (delegation before) = true
     → has_delegation (delegation after) = true)
  ∧ (has_error_recovery (error_recovery before) = true
     → has_error_recovery (error_recovery after) = true)
  ∧ (has_validation (validation before) = true
     → has_validation (validation after) = true).
Proof.
  unfold detect_patterns.
  cbn [iteration exploration implementation delegation error_recovery
         validation].
  rewrite !is_iterative_spec, !is_exploratory_spec, !is_implementation_spec,
    !has_delegation_spec, !has_error_recovery_spec, !has_validation_spec.
  unfold exploration_calls, parallel_turns, calls_named, delegating_texts,
    delegation_tool_calls.
  rewrite !assistant_calls_app, !omap_app, !map_app, !filter_app,
    !sum_list_with_app, !length_app.
  pose proof (recovered_errors_app_le messages more) as Hrec.
  rewrite !orb_true_iff, !andb_true_iff, !Nat.leb_le, !Nat.ltb_lt.
  repeat split; intros; lia.
Qed.

Lemma gates_survive_more_messages_witness :
  is_iterative (iteration (detect_patterns (iterative_writer ++ six_reads)))
  = true.
Proof.
  apply (gates_survive_more_messages iterative_writer six_reads).
  reflexivity.
Defined.

(** ** Classifier *)

Ltac settle_sublist :=
  unfold approach_priority;
  repeat first [apply sublist_nil | apply sublist_skip | apply sublist_cons].

(** X7.  The classifier emits each of the six labels exactly under its
    gate ("Direct Implementation" needs the implementation gate without
    the iteration gate) and in the fixed priority order, so a list has at
    most five labels. *)
Theorem approaches_follow_priority pats :
  let labels := categorize_approach pats in
  (no_gate_fires pats = false → sublist labels approach_priority)
  ∧ length labels ≤ 5
  ∧ ("Iterative Refinement" ∈ labels
     ↔ is_iterative (iteration pats) = true)
  ∧ ("Exploratory Investigation" ∈ labels
     ↔ is_exploratory (exploration pats) = true)
  ∧ ("Direct Implementation" ∈ labels
     ↔ is_implementation (implementation pats) = true
       ∧ is_iterative (iteration pats) = false)
  ∧ ("Multi-Agent Orchestration" ∈ labels
     ↔ has_delegation (delegation pats) = true)
  ∧ ("Error Recovery & Resilience" ∈ labels
     ↔ has_error_recovery (error_recovery pats) = true)
  ∧ ("Validation-Driven" ∈ labels
     ↔ has_validation (validation pats) = true).
Proof.
  gates pats;
    (split;
     [intros Hgate; first [discriminate Hgate | settle_sublist]
     |apply (bool_decide_unpack _); by vm_compute]).
Qed.

Lemma approaches_follow_priority_witness :
  sublist (categorize_approach (detect_patterns iterative_explorer))
    approach_priority.
Proof.
  apply (approaches_follow_priority (detect_patterns iterative_explorer)).
  reflexivity.
Defined.

(** * Further properties of the summarizer *)

Lemma analyze_session_valid fromisoformat files :
  is_Some (analyze_session fromisoformat files)
  ↔ is_valid_session files = true.
Proof.
  unfold analyze_session, is_valid_session.
  destruct (metadata files) as [md|]; [|split; [by intros [? ?]|done]].
  destruct (transcript files) as [|msg rest];
    split; (done || by eexists || by intros [? ?]).
Qed.

Lemma analyze_all_sessions_cons fromisoformat files corpus :
  analyze_all_sessions fromisoformat (files :: corpus)
  = match analyze_session fromisoformat files with
    | Some s => s :: analyze_all_sessions fromisoformat corpus
    | None => analyze_all_sessions fromisoformat corpus
    end.
Proof. reflexivity. Qed.

(** X8.  A session is skipped exactly when its metadata is empty or its
    transcript has no message; [analyze_all_sessions] returns one record
    per remaining session, in corpus order, each holding the detector
    signals and the (positive) message count of its own transcript. *)
Theorem one_record_per_valid_session fromisoformat corpus :
  let sessions := analyze_all_sessions fromisoformat corpus in
  let valid := filter (fun files => is_valid_session files = true) corpus in
  (∀ files, analyze_session fromisoformat files = None
            ↔ metadata files = None ∨ transcript files = [])
  ∧ length sessions = length valid
  ∧ map message_count sessions
    = map (fun files => length (transcript files)) valid
  ∧ map patterns sessions
    = map (fun files => detect_patterns (transcript files)) valid
  ∧ Forall (fun s => 1 ≤ message_count s) sessions.
Proof.
  cbn zeta. split.
  { intros files. unfold analyze_session.
    destruct (metadata files) as [md|], (transcript files) as [|msg rest];
      split; intros; try done; try (by left); try (by right);
      destruct H as [?|?]; done. }
  induction corpus as [|files corpus (IHlen & IHcount & IHpat & IHpos)];
    [done|].
  rewrite analyze_all_sessions_cons, filter_cons.
  pose proof (analyze_session_valid fromisoformat files) as Hvalid.
  destruct (analyze_session fromisoformat files) as [s|] eqn:Hs.
  - rewrite decide_True by (apply Hvalid; by eexists).
    destruct (analyze_session_Some _ _ _ Hs) as (Hne & Hpat & _).
    assert (message_count s = length (transcript files)) as Hcount.
    { unfold analyze_session in Hs.
      destruct (metadata files), (transcript files); try done.
      by injection Hs as <-. }
    cbn [map length]. rewrite IHlen, IHcount, IHpat, Hcount, Hpat.
    repeat split; try done. constructor; [|done].
    rewrite Hcount. destruct (transcript files); [done|simpl; lia].
  - rewrite decide_False; [done|].
    intros Habs. apply Hvalid in Habs as [? ?]. done.
Qed.

Lemma Qgtb_half_ratio recoveries errors :
  0 < errors →
  Qgtb (ratio recoveries errors) (1 # 2) = true ↔ errors < 2 * recoveries.
Proof.
  intros Hpos. rewrite (Qgtb_ratio recoveries errors 1 2 Hpos). lia.
Qed.

Lemma good_recovery_spec messages :
  Qgtb (recovery_rate (detect_error_recovery messages)) (1 # 2) = true
  ↔ errors_encountered (detect_error_recovery messages)
    < 2 * recovery_attempts (detect_error_recovery messages).
Proof.
  unfold detect_error_recovery.
  pose proof (error_recovery_loop_bound messages (enumerate messages) (0, 0))
    as Hle.
  destruct (foldl _ _ _) as [errors recoveries]. simpl in Hle.
  specialize (Hle (le_n 0)).
  cbn [recovery_rate errors_encountered recovery_attempts].
  destruct (Nat.ltb_spec 0 errors) as [Hpos|Hzero].
  - by apply Qgtb_half_ratio.
  - split; [done|lia].
Qed.

Lemma success_indicators_of_spec pats turns :
  let indicators := success_indicators_of pats turns in
  sublist indicators indicator_order
  ∧ ("Files Modified" ∈ indicators
     ↔ (0 <? total_file_ops (implementation pats)) = true)
  ∧ ("Good Error Recovery" ∈ indicators
     ↔ Qgtb (recovery_rate (error_recovery pats)) (1 # 2) = true)
  ∧ ("Validated" ∈ indicators ↔ has_validation (validation pats) = true)
  ∧ ("Substantial Work" ∈ indicators ↔ (5 <? turns)%Z = true).
Proof.
  unfold success_indicators_of, append_if, indicator_order.
  destruct (0 <? total_file_ops (implementation pats)),
    (Qgtb (recovery_rate (error_recovery pats)) (1 # 2)),
    (has_validation (validation pats)), (5 <? turns)%Z; cbn zeta; simpl;
    (split;
     [repeat first [apply sublist_nil | apply sublist_skip
                   | apply sublist_cons]
     |apply (bool_decide_unpack _); by vm_compute]).
Qed.

(** X9.  The success indicators of a record appear in a fixed order, each
    exactly under its condition: "Files Modified" with at least one file
    operation, "Good Error Recovery" when more than half of the errors
    were followed by a recovery attempt, "Validated" under the validation
    gate, and "Substantial Work" with a turn count above five. *)
Theorem success_indicators_characterised fromisoformat files s :
  analyze_session fromisoformat files = Some s →
  sublist (success_indicators s) indicator_order
  ∧ ("Files Modified" ∈ success_indicators s
     ↔ 0 < total_file_ops (implementation (patterns s)))
  ∧ ("Good Error Recovery" ∈ success_indicators s
     ↔ errors_encountered (error_recovery (patterns s))
       < 2 * recovery_attempts (error_recovery (patterns s)))
  ∧ ("Validated" ∈ success_indicators s
     ↔ has_validation (validation (patterns s)) = true)
  ∧ ("Substantial Work" ∈ success_indicators s ↔ (5 < turn_count s)%Z).
Proof.
  intros Hs.
  assert (success_indicators s
          = success_indicators_of (patterns s) (turn_count s)
          ∧ patterns s = detect_patterns (transcript files)) as [-> Hpat].
  { unfold analyze_session in Hs.
    destruct (metadata files), (transcript files); try done.
    by injection Hs as <-. }
  destruct (success_indicators_of_spec (patterns s) (turn_count s))
    as (Hsub & Hfiles & Hrec & Hval & Hwork).
  split; [done|].
  rewrite Hfiles, Hrec, Hval, Hwork, Nat.ltb_lt, Z.ltb_lt.
  rewrite Hpat. cbn [error_recovery detect_patterns].
  by rewrite good_recovery_spec.
Qed.

Lemma success_indicators_characterised_witness :
  ∃ s, analyze_session Iso.fromisoformat long_description_files = Some s
       ∧ success_indicators s = ["Files Modified"; "Substantial Work"]
       ∧ ("Substantial Work" ∈ success_indicators s ↔ (5 < turn_count s)%Z).
Proof.
  eexists. split; [reflexivity|]. split; [reflexivity|].
  eapply (success_indicators_characterised Iso.fromisoformat
            long_description_files).
  reflexivity.
Defined.

(** ** Truncated description *)

Lemma take_length n s :
  String.length (PyStr.take n s) = Nat.min n (String.length s).
Proof.
  revert s. induction n as [|n IH]; intros [|c s]; simpl; try done.
  by rewrite IH.
Qed.

Lemma take_startswith n s : PyStr.startswith (PyStr.take n s) s = true.
Proof.
  revert s. induction n as [|n IH]; intros [|c s]; simpl; try done.
  by rewrite Ascii.eqb_refl, IH.
Qed.

Lemma take_all n s : String.length s ≤ n → PyStr.take n s = s.
Proof.
  revert s. induction n as [|n IH]; intros [|c s]; simpl; try done;
    [lia|]. intros Hlen. rewrite IH by lia. done.
Qed.

(** X10.  The description of a record is the first 200 characters of the
    metadata description: it is never longer than 200 characters, it is a
    prefix of the original, and a description of at most 200 characters is
    kept whole. *)
Theorem description_truncated fromisoformat files s :
  analyze_session fromisoformat files = Some s →
  let original := default "" (metadata files ≫= meta_description) in
  String.length (description s) ≤ 200
  ∧ String.length (description s) = Nat.min 200 (String.length original)
  ∧ PyStr.startswith (description s) original = true
  ∧ (String.length original ≤ 200 → description s = original).
Proof.
  intros Hs. cbn zeta.
  assert (description s
          = PyStr.take 200 (default "" (metadata files ≫= meta_description)))
    as ->.
  { unfold analyze_session in Hs.
    destruct (metadata files), (transcript files); try done.
    by injection Hs as <-. }
  rewrite take_length. split; [lia|]. split; [done|].
  split; [apply take_startswith|apply take_all].
Qed.

Lemma description_truncated_witness :
  ∃ s, analyze_session Iso.fromisoformat long_description_files = Some s
       ∧ String.length (description s) = 200.
Proof.
  eexists. split; [reflexivity|].
  eapply (description_truncated Iso.fromisoformat long_description_files).
  reflexivity.
Defined.

(** ** Parent session identifier *)

Lemma rev_acc_append acc s t :
  PyStr.rev_acc acc s +:+ t = PyStr.rev_acc (acc +:+ t) s.
Proof.
  revert acc. induction s as [|c s IH]; intros acc; simpl; [done|].
  by rewrite IH.
Qed.

Lemma contains_hyphen_cons c s :
  PyStr.contains "-" (String c s)
  = Ascii.eqb "-" c || PyStr.contains "-" s.
Proof. simpl. by rewrite andb_true_r. Qed.

(** The first piece of a split at "-": the text before the first hyphen. *)
Lemma split_hyphen_head s cur :
  ∃ piece,
    head (PyStr.split_from "-" 0 cur s)
    = Some (PyStr.rev_acc "" cur +:+ piece)
    ∧ PyStr.contains "-" piece = false
    ∧ (PyStr.contains "-" s = false → piece = s)
    ∧ (PyStr.contains "-" s = true
       → ∃ rest, s = piece +:+ "-" +:+ rest).
Proof.
  revert cur. induction s as [|c s IH]; intros cur.
  - exists "". simpl. rewrite rev_acc_append. simpl.
    repeat split; try done.
  - cbn [PyStr.split_from PyStr.startswith].
    destruct (Ascii.eqb_spec "-" c) as [<-|Hc]; cbn [andb].
    + exists "". simpl. rewrite rev_acc_append. simpl.
      repeat split; try done. intros _. by exists s.
    + destruct (IH (String c cur)) as (piece & Hhead & Hnone & Hall & Hsome).
      exists (String c piece). rewrite Hhead. cbn [PyStr.rev_acc].
      rewrite !rev_acc_append, !contains_hyphen_cons.
      destruct (Ascii.eqb_spec "-" c) as [?|_]; [done|].
      cbn [orb String.append].
      repeat split; try done.
      * intros Hs. by rewrite Hall.
      * intros Hs. destruct (Hsome Hs) as [rest ->]. by exists rest.
Qed.

(** X11.  The parent session identifier is the part of the session
    directory name before its first hyphen, and the empty string when the
    name has no hyphen. *)
Theorem parent_session_id_is_prefix fromisoformat files s :
  analyze_session fromisoformat files = Some s →
  let dir := session_dir_name (metadata_path files) in
  PyStr.contains "-" (parent_session_id s) = false
  ∧ (PyStr.contains "-" dir = false → parent_session_id s = "")
  ∧ (PyStr.contains "-" dir = true
     → ∃ rest, dir = parent_session_id s +:+ "-" +:+ rest).
Proof.
  intros Hs. cbn zeta.
  assert (parent_session_id s
          = if PyStr.contains "-" (session_dir_name (metadata_path files))
            then default ""
                   (head (PyStr.split "-"
                            (session_dir_name (metadata_path files))))
            else "") as ->.
  { unfold analyze_session in Hs.
    destruct (metadata files), (transcript files); try done.
    by injection Hs as <-. }
  destruct (split_hyphen_head (session_dir_name (metadata_path files)) "")
    as (piece & Hhead & Hnone & _ & Hsome).
  unfold PyStr.split. rewrite Hhead. simpl.
  destruct (PyStr.contains "-" (session_dir_name (metadata_path files)));
    repeat split; done.
Qed.

Lemma parent_session_id_is_prefix_witness :
  ∃ s, analyze_session Iso.fromisoformat long_description_files = Some s
       ∧ parent_session_id s = "root"
       ∧ PyStr.contains "-" (parent_session_id s) = false.
Proof.
  eexists. split; [reflexivity|]. split; [reflexivity|].
  eapply (parent_session_id_is_prefix Iso.fromisoformat
            long_description_files).
  reflexivity.
Defined.

(** * Further properties of the corpus aggregator *)

Lemma label_counts_of_gates pats :
  length (filter (fun l => l = "Iterative Refinement")
            (categorize_approach pats))
  = (if is_iterative (iteration pats) then 1 else 0)
  ∧ length (filter (fun l => l = "Exploratory Investigation")
              (categorize_approach pats))
    = (if is_exploratory (exploration pats) then 1 else 0)
  ∧ length (filter (fun l => l = "Direct Implementation")
              (categorize_approach pats))
    = (if is_implementation (implementation pats)
          && negb (is_iterative (iteration pats)) then 1 else 0)
  ∧ length (filter (fun l => l = "Multi-Agent Orchestration")
              (categorize_approach pats))
    = (if has_delegation (delegation pats) then 1 else 0)
  ∧ length (filter (fun l => l = "Error Recovery & Resilience")
              (categorize_approach pats))
    = (if has_error_recovery (error_recovery pats) then 1 else 0)
  ∧ length (filter (fun l => l = "Validation-Driven")
              (categorize_approach pats))
    = (if has_validation (validation pats) then 1 else 0)
  ∧ length (filter (fun l => l = "Simple/Conversational")
              (categorize_approach pats))
    = (if no_gate_fires pats then 1 else 0).
Proof. gates pats; by vm_compute. Qed.

Lemma count_where_cons gate s sessions :
  count_where gate (s :: sessions)
  = (if gate s then 1 else 0) + count_where gate sessions.
Proof.
  unfold count_where. rewrite filter_cons.
  destruct (gate s); [rewrite decide_True by done|rewrite decide_False by done];
    done.
Qed.

(** A label that each session carries once under [gate] and not at all
    otherwise is counted once per session that satisfies [gate]. *)
Lemma approach_counts_exact label (gate : SessionRecord → bool) sessions
  counts :
  Forall (fun s => length (filter (fun l => l = label) (approaches s))
                   = if gate s then 1 else 0) sessions →
  counter_get (foldl count_approaches counts sessions) label
  = counter_get counts label + count_where gate sessions.
Proof.
  intros Hall. revert counts.
  induction Hall as [|s sessions Hs _ IH]; intros counts; cbn [foldl].
  - unfold count_where. simpl. lia.
  - rewrite IH, count_where_cons. unfold count_approaches.
    rewrite counter_get_count_list, Hs. lia.
Qed.

Lemma analyzed_sessions_categorized fromisoformat corpus :
  Forall (fun s => approaches s = categorize_approach (patterns s))
    (analyze_all_sessions fromisoformat corpus).
Proof.
  apply Forall_forall. intros s Hs.
  apply analyze_all_sessions_elem in Hs as (files & _ & Hs).
  by destruct (analyze_session_Some _ _ _ Hs) as (_ & _ & ? & _).
Qed.

Ltac count_label fromisoformat corpus :=
  erewrite (approach_counts_exact _ _ _ ∅);
  [rewrite counter_get_empty; reflexivity|];
  eapply Forall_impl; [apply (analyzed_sessions_categorized fromisoformat corpus)|];
  intros ? ->; apply label_counts_of_gates.

(** X12.  In the summary of the analyzed corpus the frequency of a label
    is the number of sessions whose gate is true: five labels agree with
    the corresponding pattern count, "Direct Implementation" counts the
    implementation sessions that are not iterative, and
    "Simple/Conversational" the sessions in which no gate fires. *)
Theorem frequencies_agree_with_pattern_counts fromisoformat corpus :
  let sessions := analyze_all_sessions fromisoformat corpus in
  let summary := generate_summary_statistics sessions in
  let frequency := counter_get (approach_frequencies summary) in
  let stats := pattern_statistics summary in
  frequency "Iterative Refinement" = iterative_sessions stats
  ∧ frequency "Exploratory Investigation" = exploratory_sessions stats
  ∧ frequency "Multi-Agent Orchestration" = delegated_sessions stats
  ∧ frequency "Error Recovery & Resilience" = error_recovery_sessions stats
  ∧ frequency "Validation-Driven" = validated_sessions stats
  ∧ frequency "Direct Implementation"
    = count_where
        (fun s => is_implementation (implementation (patterns s))
                  && negb (is_iterative (iteration (patterns s)))) sessions
  ∧ frequency "Direct Implementation" ≤ implementation_sessions stats
  ∧ frequency "Simple/Conversational"
    = count_where (fun s => no_gate_fires (patterns s)) sessions.
Proof.
  cbn zeta.
  cbn [generate_summary_statistics approach_frequencies pattern_statistics
         iterative_sessions exploratory_sessions delegated_sessions
         error_recovery_sessions validated_sessions implementation_sessions].
  assert (counter_get
            (foldl count_approaches ∅
               (analyze_all_sessions fromisoformat corpus))
            "Direct Implementation"
          = count_where
              (fun s => is_implementation (implementation (patterns s))
                        && negb (is_iterative (iteration (patterns s))))
              (analyze_all_sessions fromisoformat corpus)) as Hdirect
    by count_label fromisoformat corpus.
  split; [count_label fromisoformat corpus|].
  split; [count_label fromisoformat corpus|].
  split; [count_label fromisoformat corpus|].
  split; [count_label fromisoformat corpus|].
  split; [count_label fromisoformat corpus|].
  split; [done|]. split; [|count_label fromisoformat corpus].
  rewrite Hdirect. unfold count_where.
  apply filter_length_mono. by intros s [? _]%andb_true_iff.
Qed.

Lemma counter_total_count_list labels counts :
  counter_total (foldl (fun c label => counter_incr label c) counts labels)
  = counter_total counts + length labels.
Proof.
  revert counts. induction labels as [|label labels IH]; intros counts; simpl.
  - lia.
  - rewrite IH, counter_total_incr. lia.
Qed.

Lemma approach_total sessions counts :
  counter_total (foldl count_approaches counts sessions)
  = counter_total counts
    + sum_list (map (fun s => length (approaches s)) sessions).
Proof.
  revert counts. induction sessions as [|s sessions IH]; intros counts.
  - simpl. lia.
  - cbn [foldl map]. rewrite IH. unfold count_approaches.
    rewrite counter_total_count_list. simpl. unfold id. lia.
Qed.

Lemma categorize_approach_length pats :
  1 ≤ length (categorize_approach pats)
  ∧ length (categorize_approach pats) ≤ 5.
Proof. gates pats; lia. Qed.

(** X13.  The approach frequencies add up to the number of labels handed
    out: at least one and at most five per analyzed session. *)
Theorem frequencies_total_bounds fromisoformat corpus :
  let sessions := analyze_all_sessions fromisoformat corpus in
  let summary := generate_summary_statistics sessions in
  counter_total (approach_frequencies summary)
  = sum_list (map (fun s => length (approaches s)) sessions)
  ∧ total_sessions summary ≤ counter_total (approach_frequencies summary)
  ∧ counter_total (approach_frequencies summary)
    ≤ 5 * total_sessions summary.
Proof.
  cbn zeta. cbn [generate_summary_statistics approach_frequencies
                   total_sessions].
  rewrite approach_total, counter_total_empty. cbn [Nat.add].
  split; [done|].
  pose proof (analyzed_sessions_categorized fromisoformat corpus) as Hall.
  induction Hall as [|s sessions Hs _ IH]; [simpl; lia|].
  cbn [map length]. rewrite Hs at 1 2.
  pose proof (categorize_approach_length (patterns s)).
  cbn [sum_list_with] in *. unfold id in *. lia.
Qed.

(** ** Sessions per date *)

Lemma sessions_on_cons date s sessions :
  sessions_on date (s :: sessions)
  = if decide (date_key s = date) then s :: sessions_on date sessions
    else sessions_on date sessions.
Proof. unfold sessions_on. by rewrite filter_cons. Qed.

(** The bucket of a date after the grouping loop: the sessions of that
    date, in corpus order, behind what the bucket held before. *)
Lemma bucket_by_date_lookup sessions buckets date :
  foldl bucket_by_date buckets sessions !! date
  = match sessions_on date sessions with
    | [] => buckets !! date
    | day => Some (default [] (buckets !! date) ++ day)
    end.
Proof.
  revert buckets. induction sessions as [|s sessions IH]; intros buckets.
  - done.
  - cbn [foldl]. rewrite IH, sessions_on_cons. unfold bucket_by_date.
    destruct (decide (date_key s = date)) as [->|Hne].
    + rewrite lookup_insert_eq. cbn [default]. unfold id.
      destruct (sessions_on date sessions); [done|].
      by rewrite <- app_assoc.
    + by rewrite lookup_insert_ne.
Qed.

Lemma insert_by_key_perm {A} (item : string * A) l :
  insert_by_key item l ≡ₚ item :: l.
Proof.
  induction l as [|x l IH]; [done|]. simpl.
  destruct (PyStr.leb item.1 x.1); [done|].
  rewrite IH. apply Permutation_swap.
Qed.

Lemma sorted_items_perm {A} (d : gmap string A) :
  sorted_items d ≡ₚ map_to_list d.
Proof.
  unfold sorted_items.
  induction (map_to_list d) as [|item l IH]; [done|]. simpl.
  by rewrite insert_by_key_perm, IH.
Qed.

Lemma insert_by_key_HdRel {A} (item x : string * A) l :
  PyStr.leb x.1 item.1 = true →
  HdRel (fun a b => PyStr.leb a.1 b.1 = true) x l →
  HdRel (fun a b => PyStr.leb a.1 b.1 = true) x (insert_by_key item l).
Proof.
  intros Hx Hl. destruct l as [|y l]; simpl; [by constructor|].
  destruct (PyStr.leb item.1 y.1); constructor; [done|].
  by inversion Hl.
Qed.

Lemma insert_by_key_sorted {A} (item : string * A) l :
  Sorted (fun a b => PyStr.leb a.1 b.1 = true) l →
  Sorted (fun a b => PyStr.leb a.1 b.1 = true) (insert_by_key item l).
Proof.
  induction 1 as [|x l Hsorted IH Hhd]; simpl.
  - by repeat constructor.
  - destruct (PyStr.leb item.1 x.1) eqn:Hle.
    + constructor; [by constructor|by constructor].
    + constructor; [done|]. apply insert_by_key_HdRel; [|done].
      unfold PyStr.leb in *.
      destruct (String.leb_total x.1 item.1) as [?|Habs]; [done|].
      by rewrite Habs in Hle.
Qed.

Lemma sorted_items_sorted {A} (d : gmap string A) :
  Sorted (fun a b => PyStr.leb a.1 b.1 = true) (sorted_items d).
Proof.
  unfold sorted_items.
  induction (map_to_list d) as [|item l IH]; simpl; [constructor|].
  by apply insert_by_key_sorted.
Qed.

Lemma sorted_items_elem {A} (d : gmap string A) key value :
  (key, value) ∈ sorted_items d ↔ d !! key = Some value.
Proof. by rewrite sorted_items_perm, elem_of_map_to_list. Qed.

Lemma sorted_items_NoDup_keys {A} (d : gmap string A) :
  NoDup (sorted_items d).*1.
Proof. rewrite sorted_items_perm. apply NoDup_fst_map_to_list. Qed.

(** The number of sessions held by all buckets together. *)
Lemma bucket_total_step (buckets : gmap string (list SessionRecord)) s :
  map_fold (fun _ day acc => length day + acc) 0 (bucket_by_date buckets s)
  = S (map_fold (fun _ day acc => length day + acc) 0 buckets).
Proof.
  unfold bucket_by_date.
  destruct (buckets !! date_key s) as [day|] eqn:Hday; cbn [default].
  - rewrite <- (insert_delete_id buckets (date_key s) day Hday) at 2.
    rewrite <- insert_delete_eq.
    rewrite !map_fold_insert_L;
      [|intros; lia|apply lookup_delete_eq|intros; lia|apply lookup_delete_eq].
    rewrite length_app. simpl. lia.
  - rewrite map_fold_insert_L; [|intros; lia|done]. done.
Qed.

Lemma bucket_total sessions (buckets : gmap string (list SessionRecord)) :
  map_fold (fun _ day acc => length day + acc) 0
    (foldl bucket_by_date buckets sessions)
  = map_fold (fun _ day acc => length day + acc) 0 buckets + length sessions.
Proof.
  revert buckets. induction sessions as [|s sessions IH]; intros buckets.
  - simpl. lia.
  - cbn [foldl]. rewrite IH, bucket_total_step. simpl. lia.
Qed.

Lemma day_counts_keys {A} (items : list (string * list A)) :
  (map (fun '(date, day) => (date, length day)) items).*1 = items.*1.
Proof.
  induction items as [|[date day] items IH]; [done|]. simpl. by f_equal.
Qed.

Lemma day_counts_sum {A} (items : list (string * list A)) :
  sum_list (map (fun '(date, day) => (date, length day)) items).*2
  = foldr (fun item acc => length item.2 + acc) 0 items.
Proof.
  induction items as [|[date day] items IH]; [done|]. simpl.
  unfold id. by f_equal.
Qed.

Lemma day_counts_elem {A} (items : list (string * list A)) date n :
  (date, n) ∈ map (fun '(date, day) => (date, length day)) items
  ↔ ∃ day, (date, day) ∈ items ∧ n = length day.
Proof.
  induction items as [|[date' day'] items IH]; simpl.
  - split; [by intros ?%elem_of_nil|by intros (? & ?%elem_of_nil & _)].
  - rewrite elem_of_cons, IH. split.
    + intros [[= -> ->]|(day & Hin & ->)].
      * exists day'. split; [left|done].
      * exists day. split; [by right|done].
    + intros (day & Hin & ->). apply elem_of_cons in Hin as [[= -> ->]|Hin].
      * by left.
      * right. by exists day.
Qed.

Lemma day_counts_sorted {A} (items : list (string * list A)) :
  Sorted (fun a b => PyStr.leb a.1 b.1 = true) items →
  Sorted (fun a b : string * nat => PyStr.leb a.1 b.1 = true)
    (map (fun '(date, day) => (date, length day)) items).
Proof.
  induction 1 as [|[date day] items Hsorted IH Hhd]; simpl; constructor;
    [done|].
  destruct Hhd as [|[date' day'] items' Hle]; simpl; by constructor.
Qed.

Lemma foldr_day_lengths_perm {A} (l k : list (string * list A)) :
  l ≡ₚ k →
  foldr (fun item acc => length item.2 + acc) 0 l
  = foldr (fun item acc => length item.2 + acc) 0 k.
Proof.
  induction 1 as [|x l k _ IH|x y l|l k m _ IH1 _ IH2]; simpl;
    [done|by rewrite IH|lia|by rewrite IH1].
Qed.

(** X14.  The sessions-per-date table lists its dates in ascending order
    and without repetition; a date appears with count [n] exactly when
    [n > 0] sessions have that date key (the first ten characters of
    [created], or "unknown"), and the counts add up to the number of
    sessions. *)
Theorem sessions_by_date_characterised sessions :
  let table := sessions_by_date (generate_summary_statistics sessions) in
  Sorted (fun a b => PyStr.leb a.1 b.1 = true) table
  ∧ NoDup table.*1
  ∧ (∀ date n, (date, n) ∈ table
               ↔ n = length (sessions_on date sessions) ∧ 0 < n)
  ∧ sum_list table.*2 = length sessions.
Proof.
  cbn zeta. cbn [generate_summary_statistics sessions_by_date].
  set (buckets := foldl bucket_by_date ∅ sessions).
  split; [|split; [|split]].
  - apply day_counts_sorted, sorted_items_sorted.
  - rewrite day_counts_keys. apply sorted_items_NoDup_keys.
  - intros date n. rewrite day_counts_elem. split.
    + intros (day & Hin & ->).
      apply sorted_items_elem in Hin. unfold buckets in Hin.
      rewrite bucket_by_date_lookup, lookup_empty in Hin.
      destruct (sessions_on date sessions) as [|s day'] eqn:Hday;
        [done|].
      injection Hin as <-. simpl. split; [done|lia].
    + intros [-> Hpos]. exists (sessions_on date sessions).
      split; [|done]. apply sorted_items_elem. unfold buckets.
      rewrite bucket_by_date_lookup, lookup_empty.
      destruct (sessions_on date sessions); [simpl in Hpos; lia|done].
  - rewrite day_counts_sum,
      (foldr_day_lengths_perm _ _ (sorted_items_perm buckets)).
    pose proof (bucket_total sessions ∅) as Htotal. fold buckets in Htotal.
    rewrite map_fold_empty, map_fold_foldr in Htotal. simpl in Htotal.
    rewrite <- Htotal.
    clear Htotal.
    induction (map_to_list buckets) as [|[date day] l IH]; [done|].
    simpl. f_equal. apply IH.
Qed.

(** * The dashboard on exported rows *)

Lemma column_all_approaches s :
  column (csv_row s) "All Approaches" = PyStr.join ", " (approaches s).
Proof.
  unfold column, csv_row.
  rewrite !lookup_insert_ne by discriminate. by rewrite lookup_insert_eq.
Qed.

Lemma column_success_indicators s :
  column (csv_row s) "Success Indicators"
  = PyStr.join ", " (success_indicators s).
Proof.
  unfold column, csv_row.
  rewrite !lookup_insert_ne by discriminate. by rewrite lookup_insert_eq.
Qed.

Lemma csv_row_created s : csv_row s !! "Created" = Some (created s).
Proof.
  unfold csv_row.
  rewrite !lookup_insert_ne by discriminate. by rewrite lookup_insert_eq.
Qed.

(** Joining the labels of a session with ", " and splitting the cell
    again gives the labels back. *)
Lemma joined_labels_round_trip pats :
  PyStr.truthy (PyStr.join ", " (categorize_approach pats)) = true
  ∧ PyText.strip <$> PyStr.split ", " (PyStr.join ", " (categorize_approach pats))
    = categorize_approach pats.
Proof. gates pats; by vm_compute. Qed.

Lemma approach_counter_step_spec counter s :
  approaches s = categorize_approach (patterns s) →
  approach_counter_step counter (csv_row s) = count_approaches counter s.
Proof.
  intros Hs. unfold approach_counter_step, count_approaches.
  rewrite column_all_approaches, Hs.
  destruct (joined_labels_round_trip (patterns s)) as [-> Hsplit].
  rewrite <- Hsplit at 2. by rewrite foldl_fmap.
Qed.

(** X15.  The approach counter that the dashboard rebuilds from the
    "All Approaches" column of the exported rows is the approach-frequency
    table of the summary. *)
Theorem dashboard_approach_counter_agrees fromisoformat corpus :
  let sessions := analyze_all_sessions fromisoformat corpus in
  approach_counter (map csv_row sessions)
  = approach_frequencies (generate_summary_statistics sessions).
Proof.
  cbn zeta. cbn [generate_summary_statistics approach_frequencies].
  unfold approach_counter.
  pose proof (analyzed_sessions_categorized fromisoformat corpus) as Hall.
  generalize (∅ : gmap string nat).
  induction Hall as [|s sessions Hs _ IH]; intros counter; [done|].
  cbn [map foldl]. by rewrite approach_counter_step_spec, IH.
Qed.

Lemma count_rows_spec word header (gate : SessionRecord → bool) sessions :
  Forall (fun s => PyStr.contains word (column (csv_row s) header) = gate s)
    sessions →
  count_rows word header (map csv_row sessions) = count_where gate sessions.
Proof.
  unfold count_rows, count_where.
  induction 1 as [|s sessions Hs _ IH]; [done|].
  cbn [map]. rewrite !filter_cons, Hs.
  destruct (gate s);
    [rewrite !decide_True by done|rewrite !decide_False by done];
    simpl; by rewrite IH.
Qed.

Lemma joined_labels_mentions pats :
  PyStr.contains "Exploratory" (PyStr.join ", " (categorize_approach pats))
  = is_exploratory (exploration pats)
  ∧ PyStr.contains "Error Recovery"
      (PyStr.join ", " (categorize_approach pats))
    = has_error_recovery (error_recovery pats)
  ∧ PyStr.contains "Validation" (PyStr.join ", " (categorize_approach pats))
    = has_validation (validation pats)
  ∧ PyStr.contains "Direct Implementation"
      (PyStr.join ", " (categorize_approach pats))
    = is_implementation (implementation pats)
      && negb (is_iterative (iteration pats)).
Proof. gates pats; by vm_compute. Qed.

Lemma joined_indicators_mention pats turns :
  PyStr.contains "Files Modified"
    (PyStr.join ", " (success_indicators_of pats turns))
  = (0 <? total_file_ops (implementation pats))
  ∧ PyStr.contains "Validated"
      (PyStr.join ", " (success_indicators_of pats turns))
    = has_validation (validation pats)
  ∧ PyStr.contains "Good Error Recovery"
      (PyStr.join ", " (success_indicators_of pats turns))
    = Qgtb (recovery_rate (error_recovery pats)) (1 # 2)
  ∧ PyStr.contains "Substantial Work"
      (PyStr.join ", " (success_indicators_of pats turns))
    = (5 <? turns)%Z.
Proof.
  unfold success_indicators_of, append_if.
  destruct (0 <? total_file_ops (implementation pats)),
    (Qgtb (recovery_rate (error_recovery pats)) (1 # 2)),
    (has_validation (validation pats)), (5 <? turns)%Z; by vm_compute.
Qed.

Lemma analyzed_sessions_indicators fromisoformat corpus :
  Forall (fun s => success_indicators s
                   = success_indicators_of (patterns s) (turn_count s))
    (analyze_all_sessions fromisoformat corpus).
Proof.
  apply Forall_forall. intros s Hs.
  apply analyze_all_sessions_elem in Hs as (files & _ & Hs).
  unfold analyze_session in Hs.
  destruct (metadata files), (transcript files); try done.
  by injection Hs as <-.
Qed.

(** X16.  The counts of the dashboard's "Success Patterns" sheet, taken
    from substring tests on the "Success Indicators" column, are the
    numbers of sessions that satisfy the indicator's condition; the
    validated count is the [validated_sessions] of the summary. *)
Theorem dashboard_success_counts_agree fromisoformat corpus :
  let sessions := analyze_all_sessions fromisoformat corpus in
  let counts := success_counts (map csv_row sessions) in
  file_mod counts
  = count_where
      (fun s => 0 <? total_file_ops (implementation (patterns s))) sessions
  ∧ validated counts
    = validated_sessions
        (pattern_statistics (generate_summary_statistics sessions))
  ∧ error_rec counts
    = count_where
        (fun s => Qgtb (recovery_rate (error_recovery (patterns s))) (1 # 2))
        sessions
  ∧ substantial counts
    = count_where (fun s => (5 <? turn_count s)%Z) sessions.
Proof.
  cbn zeta. unfold success_counts.
  cbn [file_mod validated error_rec substantial generate_summary_statistics
         pattern_statistics validated_sessions].
  pose proof (analyzed_sessions_indicators fromisoformat corpus) as Hall.
  repeat split; apply count_rows_spec;
    (eapply Forall_impl; [exact Hall|]); intros s Hs; cbn beta;
    rewrite column_success_indicators, Hs;
    apply (joined_indicators_mention (patterns s) (turn_count s)).
Qed.

(** ** Timeline *)

Lemma sessions_created_on_cons date s sessions :
  sessions_created_on date (s :: sessions)
  = if decide (PyStr.truthy (created s) = true
               ∧ PyStr.take 10 (created s) = date)
    then s :: sessions_created_on date sessions
    else sessions_created_on date sessions.
Proof. unfold sessions_created_on. by rewrite filter_cons. Qed.

(** The bucket of a date after the dashboard's grouping loop over the
    exported rows. *)
Lemma timeline_bucket_lookup sessions buckets date :
  foldl timeline_bucket buckets (map csv_row sessions) !! date
  = match sessions_created_on date sessions with
    | [] => buckets !! date
    | day => Some (default [] (buckets !! date) ++ map csv_row day)
    end.
Proof.
  revert buckets. induction sessions as [|s sessions IH]; intros buckets.
  - done.
  - cbn [map foldl]. rewrite IH, sessions_created_on_cons.
    unfold timeline_bucket. rewrite csv_row_created.
    destruct (PyStr.truthy (created s)) eqn:Hcreated.
    + destruct (decide (PyStr.take 10 (created s) = date)) as [Hdate|Hdate].
      * rewrite decide_True by done. rewrite Hdate, lookup_insert_eq.
        cbn [default]. unfold id.
        destruct (sessions_created_on date sessions); [done|].
        by rewrite <- app_assoc.
      * rewrite decide_False by (by intros [_ ?]).
        by rewrite lookup_insert_ne.
    + by rewrite decide_False by (by intros [? _]).
Qed.

Lemma sorted_items_elem_ex {A} (d : gmap string A) key (P : A → Prop) :
  (∃ value, (key, value) ∈ sorted_items d ∧ P value)
  ↔ ∃ value, d !! key = Some value ∧ P value.
Proof.
  split; intros (value & Hin & HP); exists value;
    (split; [by apply sorted_items_elem|done]).
Qed.

Lemma timeline_elem rows date row :
  (date, row) ∈ timeline rows
  ↔ ∃ day, foldl timeline_bucket ∅ rows !! date = Some day
           ∧ row = day_summary day.
Proof.
  unfold timeline. rewrite <- sorted_items_elem_ex.
  induction (sorted_items (foldl timeline_bucket ∅ rows))
    as [|[date' day'] items IH]; simpl.
  - split; [by intros ?%elem_of_nil|by intros (? & ?%elem_of_nil & _)].
  - rewrite elem_of_cons, IH. split.
    + intros [[= -> ->]|(day & Hin & ->)].
      * exists day'. split; [left|done].
      * exists day. split; [by right|done].
    + intros (day & Hin & ->). apply elem_of_cons in Hin as [[= -> ->]|Hin].
      * by left.
      * right. by exists day.
Qed.

Lemma keyed_map_sorted {A B} (g : A → B) (items : list (string * A)) :
  Sorted (fun a b => PyStr.leb a.1 b.1 = true) items →
  Sorted (fun a b : string * B => PyStr.leb a.1 b.1 = true)
    (map (fun '(key, value) => (key, g value)) items).
Proof.
  induction 1 as [|[key value] items Hsorted IH Hhd]; simpl; constructor;
    [done|].
  destruct Hhd as [|[key' value'] items' Hle]; simpl; by constructor.
Qed.

Lemma keyed_map_keys {A B} (g : A → B) (items : list (string * A)) :
  (map (fun '(key, value) => (key, g value)) items).*1 = items.*1.
Proof.
  induction items as [|[key value] items IH]; [done|]. simpl. by f_equal.
Qed.

Lemma day_summary_of_sessions day :
  Forall (fun s => approaches s = categorize_approach (patterns s)) day →
  day_summary (map csv_row day)
  = {| day_total := length day;
       day_exploratory :=
         count_where (fun s => is_exploratory (exploration (patterns s))) day;
       day_error_recovery :=
         count_where
           (fun s => has_error_recovery (error_recovery (patterns s))) day;
       day_validation :=
         count_where (fun s => has_validation (validation (patterns s))) day;
       day_direct :=
         count_where
           (fun s => is_implementation (implementation (patterns s))
                     && negb (is_iterative (iteration (patterns s)))) day |}.
Proof.
  intros Hall. unfold day_summary. rewrite length_map.
  f_equal; apply count_rows_spec;
    (eapply Forall_impl; [exact Hall|]); intros s Hs; cbn beta;
    rewrite column_all_approaches, Hs;
    apply (joined_labels_mentions (patterns s)).
Qed.

(** X17.  The dashboard's timeline has one row per date, in ascending
    order, for the dates (first ten characters of a non-empty "Created"
    cell) of at least one session; sessions without a creation time are
    left out.  The row holds the number of sessions of that date and,
    from substring tests on "All Approaches", the numbers of them with the
    exploration, error-recovery and validation gates and with the label
    "Direct Implementation". *)
Theorem dashboard_timeline_characterised fromisoformat corpus :
  let sessions := analyze_all_sessions fromisoformat corpus in
  let table := timeline (map csv_row sessions) in
  Sorted (fun a b => PyStr.leb a.1 b.1 = true) table
  ∧ NoDup table.*1
  ∧ ∀ date row,
      (date, row) ∈ table
      ↔ sessions_created_on date sessions ≠ []
        ∧ row
          = let day := sessions_created_on date sessions in
            {| day_total := length day;
               day_exploratory :=
                 count_where
                   (fun s => is_exploratory (exploration (patterns s))) day;
               day_error_recovery :=
                 count_where
                   (fun s => has_error_recovery (error_recovery (patterns s)))
                   day;
               day_validation :=
                 count_where
                   (fun s => has_validation (validation (patterns s))) day;
               day_direct :=
                 count_where
                   (fun s =>
                      is_implementation (implementation (patterns s))
                      && negb (is_iterative (iteration (patterns s)))) day |}.
Proof.
  cbn zeta. split; [|split].
  - apply keyed_map_sorted, sorted_items_sorted.
  - unfold timeline. rewrite keyed_map_keys. apply sorted_items_NoDup_keys.
  - intros date row. rewrite timeline_elem.
    rewrite timeline_bucket_lookup, lookup_empty.
    assert (Forall (fun s => approaches s = categorize_approach (patterns s))
              (sessions_created_on date
                 (analyze_all_sessions fromisoformat corpus))) as Hday.
    { apply Forall_forall. intros s [_ Hs]%list_elem_of_filter.
      pose proof (analyzed_sessions_categorized fromisoformat corpus) as Hall.
      rewrite Forall_forall in Hall. by apply Hall. }
    rewrite <- (day_summary_of_sessions _ Hday).
    destruct (sessions_created_on date
                (analyze_all_sessions fromisoformat corpus)) as [|s day].
    + split; [by intros (? & ? & _)|by intros [? _]].
    + split.
      * intros (rows & [= <-] & ->). done.
      * intros [_ ->]. by eexists.
Qed.

(** * Timestamps *)

Lemma remove_from_length old skip s :
  String.length (PyStr.remove_from old skip s) ≤ String.length s.
Proof.
  revert skip. induction s as [|c s IH]; intros skip; simpl; [done|].
  destruct skip as [|skip].
  - destruct (PyStr.startswith old (String c s)).
    + specialize (IH (String.length old - 1)). lia.
    + specialize (IH 0). simpl. lia.
  - specialize (IH skip). lia.
Qed.

Lemma remove_absent old s :
  PyStr.contains old s = false → PyStr.remove old s = s.
Proof.
  unfold PyStr.remove. induction s as [|c s IH]; [done|].
  cbn [PyStr.contains PyStr.remove_from].
  intros [Hstart Hrest]%orb_false_iff. rewrite Hstart. by rewrite IH.
Qed.

Lemma remove_shortens old s :
  old ≠ "" → PyStr.contains old s = true →
  String.length (PyStr.remove old s) < String.length s.
Proof.
  intros Hold. unfold PyStr.remove. induction s as [|c s IH].
  - destruct old; [done|discriminate].
  - cbn [PyStr.contains PyStr.remove_from].
    destruct (PyStr.startswith old (String c s)) eqn:Hstart.
    + intros _.
      pose proof (remove_from_length old (String.length old - 1) s).
      simpl. lia.
    + cbn [orb]. intros Hrest. specialize (IH Hrest). simpl. lia.
Qed.

(** X18.  Removing a non-empty literal (such as "+00:00") never lengthens
    a timestamp, and it leaves the timestamp unchanged exactly when the
    literal does not occur in it. *)
Theorem remove_changes_only_occurrences old s :
  old ≠ "" →
  String.length (PyStr.remove old s) ≤ String.length s
  ∧ (PyStr.remove old s = s ↔ PyStr.contains old s = false).
Proof.
  intros Hold. split; [apply remove_from_length|]. split.
  - intros Hsame. destruct (PyStr.contains old s) eqn:Hin; [|done].
    pose proof (remove_shortens old s Hold Hin) as Hlt.
    rewrite Hsame in Hlt. lia.
  - apply remove_absent.
Qed.

Lemma remove_changes_only_occurrences_witness :
  PyStr.remove "+00:00" "2024-01-01T02:00:00+01:00"
  = "2024-01-01T02:00:00+01:00"
  ↔ PyStr.contains "+00:00" "2024-01-01T02:00:00+01:00" = false.
Proof.
  apply (remove_changes_only_occurrences "+00:00"
           "2024-01-01T02:00:00+01:00").
  discriminate.
Defined.

Lemma last_endpoints {A} (first final : A) middle :
  last (first :: middle ++ [final]) = Some final.
Proof.
  change (first :: middle ++ [final]) with ((first :: middle) ++ [final]).
  apply last_snoc.
Qed.

(** X19.  The duration depends on the first and the last message only:
    the messages in between, with or without timestamps, do not change
    it. *)
Theorem duration_ignores_middle fromisoformat first middle final :
  calculate_session_duration fromisoformat (first :: middle ++ [final])
  = calculate_session_duration fromisoformat [first; final].
Proof.
  unfold calculate_session_duration.
  rewrite last_endpoints. cbn [head].
  change [first; final] with (first :: [] ++ [final]).
  rewrite last_endpoints.
  destruct (Nat.ltb_spec (length (first :: middle ++ [final])) 2) as [Hlt|_].
  - rewrite length_cons, length_app in Hlt. simpl in Hlt. lia.
  - done.
Qed.

(** X20.  When one of the two parsed timestamps carries a UTC offset and
    the other does not, their subtraction raises, the exception is
    absorbed and the duration is 0.  Since "+00:00" is removed before
    parsing, this is what happens when a UTC timestamp meets one with
    another offset. *)
Theorem mixed_awareness_gives_zero fromisoformat messages a b :
  fromisoformat (PyStr.remove "+00:00" (timestamp_of (head messages)))
  = Some a →
  fromisoformat (PyStr.remove "+00:00" (timestamp_of (last messages)))
  = Some b →
  (utcoffset_us a = None ∧ utcoffset_us b ≠ None)
  ∨ (utcoffset_us a ≠ None ∧ utcoffset_us b = None) →
  calculate_session_duration fromisoformat messages = 0%Q.
Proof.
  intros Ha Hb Hmixed. unfold calculate_session_duration.
  destruct (length messages <? 2); [done|].
  destruct (head messages) as [first|] eqn:Hhead; [|done].
  destruct (last messages) as [final|] eqn:Hfinal; [|done].
  unfold timestamp_of, duration_try, parse_timestamp in *. simpl in *.
  destruct (_ && _); [|done]. rewrite Ha, Hb. simpl.
  unfold datetime_sub.
  destruct Hmixed as [[Hna Hnb]|[Hna Hnb]];
    destruct (utcoffset_us a), (utcoffset_us b); done.
Qed.

Lemma mixed_awareness_gives_zero_witness :
  calculate_session_duration Iso.fromisoformat mixed_offsets = 0%Q.
Proof.
  eapply (mixed_awareness_gives_zero Iso.fromisoformat mixed_offsets).
  - reflexivity.
  - reflexivity.
  - left. split; [reflexivity|discriminate].
Defined.

(** * Agent names *)

Lemma span_spec p s a b :
  Re.span p s = (a, b) →
  s = a +:+ b ∧ Forall (fun c => p c = true) (PyText.chars a).
Proof.
  revert a b. induction s as [|c s IH]; intros a b; simpl.
  - intros [= <- <-]. by split.
  - destruct (p c) eqn:Hc.
    + destruct (Re.span p s) as [a' b'] eqn:Hspan.
      intros [= <- <-]. destruct (IH a' b' eq_refl) as [-> Hall].
      split; [done|]. simpl. by constructor.
    + intros [= <- <-]. by split.
Qed.

Lemma contains_unfold needle hay :
  PyStr.contains needle hay
  = PyStr.startswith needle hay
    || match hay with
       | EmptyString => false
       | String _ hay' => PyStr.contains needle hay'
       end.
Proof. by destruct hay. Qed.

Lemma startswith_append needle rest :
  PyStr.startswith needle (needle +:+ rest) = true.
Proof.
  induction needle as [|c needle IH]; simpl; [by destruct rest|].
  by rewrite Ascii.eqb_refl, IH.
Qed.

Lemma contains_infix needle before after :
  PyStr.contains needle (before +:+ (needle +:+ after)) = true.
Proof.
  induction before as [|c before IH].
  - change ("" +:+ (needle +:+ after)) with (needle +:+ after).
    by rewrite contains_unfold, startswith_append.
  - change (String c before +:+ (needle +:+ after))
      with (String c (before +:+ (needle +:+ after))).
    rewrite contains_unfold, IH. apply orb_true_r.
Qed.

Lemma match_use_here_spec s name :
  Re.match_use_here s = Some name →
  name ≠ ""
  ∧ Forall (fun c => PyStr.isspace c = false) (PyText.chars name)
  ∧ ∃ before after, s = before +:+ (name +:+ after).
Proof.
  unfold Re.match_use_here.
  destruct s as [|c1 [|c2 [|c3 rest]]]; try done.
  destruct (_ && _); [|done].
  destruct (Re.span PyStr.isspace rest) as [ws after] eqn:Hws.
  destruct (Re.span (fun c => negb (PyStr.isspace c)) after)
    as [tok rest'] eqn:Htok.
  destruct (PyStr.truthy ws && PyStr.truthy tok) eqn:Htruthy; [|done].
  intros [= <-].
  apply andb_true_iff in Htruthy as [_ Htok_nonempty].
  destruct (span_spec _ _ _ _ Hws) as [-> _].
  destruct (span_spec _ _ _ _ Htok) as [-> Hall].
  split; [by destruct tok|]. split.
  - eapply Forall_impl; [exact Hall|]. intros c Hc.
    by apply negb_true_iff.
  - by exists (String c1 (String c2 (String c3 ws))), rest'.
Qed.

Lemma search_use_spec s name :
  Re.search_use s = Some name →
  name ≠ ""
  ∧ Forall (fun c => PyStr.isspace c = false) (PyText.chars name)
  ∧ PyStr.contains name s = true.
Proof.
  induction s as [|c s IH].
  - simpl. done.
  - cbn [Re.search_use].
    destruct (Re.match_use_here (String c s)) as [tok|] eqn:Hhere.
    + intros [= ->].
      destruct (match_use_here_spec _ _ Hhere)
        as (Hne & Hall & before & after & ->).
      repeat split; try done. apply contains_infix.
    + intros Hrest. destruct (IH Hrest) as (Hne & Hall & Hin).
      repeat split; try done.
      rewrite contains_unfold, Hin. apply orb_true_r.
Qed.

Lemma agents_used_spec messages :
  agents_used (detect_delegation_pattern messages)
  = list_to_set (omap Re.search_use (delegating_texts messages)).
Proof.
  unfold detect_delegation_pattern. by rewrite delegation_loop.
Qed.

(** X21.  Every name in [agents_used] is what the regular expression
    finds in a user text that asks for an agent: the name is not empty,
    contains no whitespace and occurs in that text. *)
Theorem agent_names_are_tokens messages name :
  name ∈ agents_used (detect_delegation_pattern messages) →
  name ≠ ""
  ∧ Forall (fun c => PyStr.isspace c = false) (PyText.chars name)
  ∧ ∃ text, text ∈ delegating_texts messages
            ∧ Re.search_use text = Some name
            ∧ PyStr.contains name text = true.
Proof.
  rewrite agents_used_spec, elem_of_list_to_set, list_elem_of_omap.
  intros (text & Htext & Hsearch).
  destruct (search_use_spec _ _ Hsearch) as (Hne & Hall & Hin).
  split; [done|]. split; [done|]. by exists text.
Qed.

Lemma agent_names_are_tokens_witness :
  "zen-architect" ∈ agents_used (detect_delegation_pattern asks_for_architect)
  ∧ Forall (fun c => PyStr.isspace c = false) (PyText.chars "zen-architect").
Proof.
  assert ("zen-architect"
          ∈ agents_used (detect_delegation_pattern asks_for_architect))
    as Hin by (apply (bool_decide_unpack _); by vm_compute).
  split; [exact Hin|].
  apply (agent_names_are_tokens asks_for_architect "zen-architect" Hin).
Defined.

(** * Transcript loading *)

Section LoaderFacts.

Variable json_loads : string -> option Message.

Lemma read_lines_acc messages lines :
  read_lines json_loads messages lines
  = messages ++ read_lines json_loads [] lines.
Proof.
  revert messages. induction lines as [|line lines IH]; intros messages.
  - simpl. by rewrite app_nil_r.
  - cbn [read_lines].
    destruct (PyStr.truthy (PyText.strip line)); [|apply IH].
    destruct (json_loads line) as [msg|]; [|by rewrite app_nil_r].
    rewrite (IH (messages ++ [msg])), (IH ([] ++ [msg])).
    by rewrite <- app_assoc.
Qed.

(** Lines that are blank or well formed are read to the end. *)
Lemma read_lines_good good more :
  Forall (fun line => PyStr.truthy (PyText.strip line) = true
                      → is_Some (json_loads line)) good →
  read_lines json_loads [] (good ++ more)
  = omap json_loads
      (filter (fun line => PyStr.truthy (PyText.strip line) = true) good)
    ++ read_lines json_loads [] more.
Proof.
  induction 1 as [|line good Hline _ IH]; [done|].
  cbn [app read_lines]. rewrite filter_cons.
  destruct (PyStr.truthy (PyText.strip line)) eqn:Hblank.
  - rewrite decide_True by done.
    destruct (Hline eq_refl) as [msg Hmsg]. rewrite Hmsg.
    rewrite read_lines_acc, IH. simpl. by rewrite Hmsg.
  - rewrite decide_False by done. apply IH.
Qed.

End LoaderFacts.

(** X22.  [parse_transcript] keeps what it read before the first line that
    does not parse and drops everything after it: if the lines [good] are
    blank or well formed and the non-blank line [bad] is malformed, the
    transcript of [good ++ bad :: rest] is that of [good], namely the
    messages of the non-blank lines of [good] in order. *)
Theorem transcript_stops_at_malformed_line json_loads good bad rest :
  Forall (fun line => PyStr.truthy (PyText.strip line) = true
                      → is_Some (json_loads line)) good →
  PyStr.truthy (PyText.strip bad) = true →
  json_loads bad = None →
  parse_transcript json_loads (Some (good ++ bad :: rest))
  = parse_transcript json_loads (Some good)
  ∧ parse_transcript json_loads (Some good)
    = omap json_loads
        (filter (fun line => PyStr.truthy (PyText.strip line) = true) good).
Proof.
  intros Hgood Hblank Hbad. unfold parse_transcript.
  rewrite (read_lines_good json_loads good (bad :: rest) Hgood).
  rewrite <- (app_nil_r good) at 2 3.
  rewrite (read_lines_good json_loads good [] Hgood).
  cbn [read_lines]. rewrite Hblank, Hbad, app_nil_r. done.
Qed.

Lemma transcript_stops_at_malformed_line_witness :
  parse_transcript json_sample
    (Some (["{user}"; "   "; "{tool}"] ++ "{broken" :: ["{user}"]))
  = parse_transcript json_sample (Some ["{user}"; "   "; "{tool}"])
  ∧ parse_transcript json_sample (Some ["{user}"; "   "; "{tool}"])
    = [user_says "hello"; tool_reports "Error: failed"].
Proof.
  apply (transcript_stops_at_malformed_line json_sample
           ["{user}"; "   "; "{tool}"] "{broken" ["{user}"]).
  - apply Forall_cons. split; [intros _; by exists (user_says "hello")|].
    apply Forall_cons. split; [intros Hblank; discriminate Hblank|].
    apply Forall_cons.
    split; [intros _; by exists (tool_reports "Error: failed")|].
    apply Forall_nil_2.
  - reflexivity.
  - reflexivity.
Defined.

(** * The printed report *)

Lemma report_lines_positive total items :
  0 < total →
  report_lines total items
  = Some (map (fun '(label, count) =>
                 (label, count, (ratio count total * 100)%Q)) items).
Proof.
  intros Hpos. induction items as [|[label count] items IH]; [done|].
  cbn [report_lines map]. unfold percentage.
  destruct (Nat.eqb_spec total 0) as [?|_]; [lia|]. by rewrite IH.
Qed.

Lemma percentage_bounds count total :
  0 < total → count ≤ total →
  (0 <= ratio count total * 100)%Q ∧ (ratio count total * 100 <= 100)%Q.
Proof.
  intros Hpos Hle. destruct (ratio_bounds count total Hpos Hle). split; lra.
Qed.

(** X23.  The loop of [main] over the pattern statistics divides by the
    session total without a guard: on an empty corpus it raises
    [ZeroDivisionError]; otherwise it prints one line per pattern, in the
    order of the table, each with a percentage between 0 and 100. *)
Theorem pattern_report_needs_sessions sessions :
  let summary := generate_summary_statistics sessions in
  (pattern_report summary = None ↔ sessions = [])
  ∧ ∀ lines,
      pattern_report summary = Some lines →
      map (fun line => line.1) lines
      = pattern_items (pattern_statistics summary)
      ∧ Forall (fun line => (0 <= line.2)%Q ∧ (line.2 <= 100)%Q) lines.
Proof.
  cbn zeta. unfold pattern_report.
  cbn [generate_summary_statistics total_sessions pattern_statistics].
  destruct sessions as [|s sessions].
  - split; [done|]. intros lines Hlines. discriminate Hlines.
  - rewrite report_lines_positive by (simpl; lia).
    split; [split; discriminate|].
    intros lines [= <-]. split; [done|].
    cbn [pattern_items map iterative_sessions exploratory_sessions
           implementation_sessions delegated_sessions validated_sessions
           error_recovery_sessions].
    repeat (apply Forall_cons; split;
            [apply percentage_bounds; [simpl; lia|apply count_where_le]|]).
    apply Forall_nil_2.
Qed.

Lemma pattern_report_needs_sessions_witness :
  ∃ lines,
    pattern_report
      (generate_summary_statistics
         (analyze_all_sessions Iso.fromisoformat [long_description_files]))
    = Some lines
    ∧ Forall (fun line => (0 <= line.2)%Q ∧ (line.2 <= 100)%Q) lines.
Proof.
  eexists. split; [reflexivity|].
  eapply (pattern_report_needs_sessions
            (analyze_all_sessions Iso.fromisoformat [long_description_files])).
  reflexivity.
Defined.

(** * Primary approach *)

(** X24.  The primary approach of a record is the label of the first gate
    that fires, in the order iteration, exploration, implementation,
    delegation, error recovery, validation, and "Simple/Conversational"
    when none does; it is never the placeholder "Unknown". *)
Theorem primary_approach_by_priority fromisoformat files s :
  analyze_session fromisoformat files = Some s →
  primary_approach s
  = (if is_iterative (iteration (patterns s)) then "Iterative Refinement"
     else if is_exploratory (exploration (patterns s))
     then "Exploratory Investigation"
     else if is_implementation (implementation (patterns s))
     then "Direct Implementation"
     else if has_delegation (delegation (patterns s))
     then "Multi-Agent Orchestration"
     else if has_error_recovery (error_recovery (patterns s))
     then "Error Recovery & Resilience"
     else if has_validation (validation (patterns s))
     then "Validation-Driven"
     else "Simple/Conversational")
  ∧ primary_approach s ≠ "Unknown".
Proof.
  intros Hs.
  destruct (analyze_session_Some _ _ _ Hs) as (_ & _ & Happ & -> & _).
  rewrite Happ. gates (patterns s); by split.
Qed.

Lemma primary_approach_by_priority_witness :
  ∃ s, analyze_session Iso.fromisoformat long_description_files = Some s
       ∧ primary_approach s = "Iterative Refinement"
       ∧ primary_approach s ≠ "Unknown".
Proof.
  eexists. split; [reflexivity|]. split; [reflexivity|].
  eapply (primary_approach_by_priority Iso.fromisoformat
            long_description_files).
  reflexivity.
Defined.
